(** * network-watchdog: the per-target monitoring loop

    A shallow embedding of the watchdog of tengattack/network-watchdog:
    the multi-probe program ([pingProbe], [requestProbe], [resetServer],
    [loopCheck] and [main]) and, in module [v1], the single-probe program
    of [main.go] ([request204], [resetServer], [loopCheck]); and the
    properties of the failure counter, the probes and the remediation step.

    The network, the file system and the remote shell are not part of the
    program: what they answer during one tick is a [World], a record of
    functions the program calls.  Every call into the outside is also
    written to a trace of [Event]s, so that "is invoked" and "connects to"
    can be stated. *)

From Stdlib Require Import ZArith String Ascii List Bool Lia.
Import ListNotations.
Local Open Scope string_scope.
Local Open Scope Z_scope.

(** ** Go's [int] *)

Module GoInt.

(** [int] is 64 bits wide on the platforms the Dockerfile builds for
    (linux/amd64, linux/arm64). *)
Definition bits : Z := 64.
Definition MaxInt : Z := 2 ^ (bits - 1) - 1.
Definition MinInt : Z := - 2 ^ (bits - 1).

(** Signed wrap-around of arithmetic on [int]. *)
Definition wrap (z : Z) : Z :=
  (z + 2 ^ (bits - 1)) mod 2 ^ bits - 2 ^ (bits - 1).

(** [x++] *)
Definition incr (x : Z) : Z := wrap (x + 1).

End GoInt.

(** ** The functions of package [strings] the program calls *)

Module strings.

(** [strings.HasPrefix(s, prefix)] *)
Definition HasPrefix (s prefix : string) : bool := String.prefix prefix s.

(** [indexFrom i s substr]: the index of the first occurrence of
    [substr] in [s], counted from [i], or -1. *)
Fixpoint indexFrom (i : Z) (s substr : string) : Z :=
  if String.prefix substr s then i
  else match s with
       | EmptyString => -1
       | String _ s' => indexFrom (i + 1) s' substr
       end.

(** [strings.Index(s, substr)] *)
Definition Index (s substr : string) : Z := indexFrom 0 s substr.

(** [lastIndexFrom i s substr acc]: the index of the last occurrence,
    [acc] being the last one seen before position [i]. *)
Fixpoint lastIndexFrom (i : Z) (s substr : string) (acc : Z) : Z :=
  let acc' := if String.prefix substr s then i else acc in
  match s with
  | EmptyString => acc'
  | String _ s' => lastIndexFrom (i + 1) s' substr acc'
  end.

(** [strings.LastIndex(s, substr)] *)
Definition LastIndex (s substr : string) : Z := lastIndexFrom 0 s substr (-1).

(** [s[i:]] *)
Fixpoint drop (n : nat) (s : string) : string :=
  match n, s with
  | O, _ => s
  | S _, EmptyString => EmptyString
  | S n', String _ s' => drop n' s'
  end.

(** The loop of [genSplit]: up to [n] cuts at [sep], then the rest. *)
Fixpoint genSplit (n : nat) (sep s : string) : list string :=
  match n with
  | O => [s]
  | S n' =>
      let m := Index s sep in
      if m <? 0 then [s]
      else String.substring 0 (Z.to_nat m) s
           :: genSplit n' sep (drop (Z.to_nat m + String.length sep) s)
  end.

(** [strings.SplitN(s, sep, n)] for a non-empty [sep]: nothing when
    [n = 0], every piece when [n < 0], and at most [n] pieces, the last
    one the unsplit rest, when [n > 0]. *)
Definition SplitN (s sep : string) (n : Z) : list string :=
  if n =? 0 then []
  else if n <? 0 then genSplit (String.length s) sep s
  else genSplit (Z.to_nat (n - 1)) sep s.

(** Whether [c] occurs in [s]. *)
Fixpoint contains_char (c : ascii) (s : string) : bool :=
  match s with
  | EmptyString => false
  | String d s' => Ascii.eqb c d || contains_char c s'
  end.

End strings.

(** ** Errors, durations and the values of the libraries *)

(** A Go [error] value; [nil] is [None] of [option error]. *)
Inductive error : Type :=
| ErrorStatusCodeIsNot204     (* errors.New("response status code is not 204") *)
| ErrorPingProbeUnfinished    (* errors.New("ping probe unfinished") *)
| errorNew (msg : string)     (* any other errors.New *)
| libError (msg : string).    (* an error a library call answered *)

(** A Go pair [(value, error)] of a call that answers one or the other. *)
Inductive result (A : Type) : Type :=
| Ok (a : A)
| Err (e : error).
Arguments Ok {A} a.
Arguments Err {A} e.

Module time.
(** [time.Duration]: nanoseconds. *)
Definition Duration : Type := Z.
Definition Second : Duration := 1000000000.
End time.

Module http.
Definition MethodGet : string := "GET".
Definition StatusOK : Z := 200.
Definition StatusNoContent : Z := 204.
Record Client : Type := { Timeout : time.Duration }.
Record Request : Type := { Method : string; URL : string }.
(** [Body] is [Some] of the content when there is a body to drain. *)
Record Response : Type := { StatusCode : Z; Body : option string }.
End http.

Module ping.
(** The fields of go-ping's [Pinger] the program reads or writes;
    [hooks] says whether [OnRecv] and [OnFinish] are set. *)
Record Pinger : Type := {
  addr : string;
  Count : Z;
  Timeout : time.Duration;
  privileged : bool;
  hooks : bool;
  PacketsSent : Z;
  PacketsRecv : Z
}.
Definition SetPrivileged (p : Pinger) (b : bool) : Pinger :=
  {| addr := addr p; Count := Count p; Timeout := Timeout p;
     privileged := b; hooks := hooks p;
     PacketsSent := PacketsSent p; PacketsRecv := PacketsRecv p |}.
Definition setCount (p : Pinger) (n : Z) : Pinger :=
  {| addr := addr p; Count := n; Timeout := Timeout p;
     privileged := privileged p; hooks := hooks p;
     PacketsSent := PacketsSent p; PacketsRecv := PacketsRecv p |}.
Definition setTimeout (p : Pinger) (d : time.Duration) : Pinger :=
  {| addr := addr p; Count := Count p; Timeout := d;
     privileged := privileged p; hooks := hooks p;
     PacketsSent := PacketsSent p; PacketsRecv := PacketsRecv p |}.
Definition setHooks (p : Pinger) : Pinger :=
  {| addr := addr p; Count := Count p; Timeout := Timeout p;
     privileged := privileged p; hooks := true;
     PacketsSent := PacketsSent p; PacketsRecv := PacketsRecv p |}.
(** What [Run] leaves in the statistics fields. *)
Definition setStats (p : Pinger) (sent recv : Z) : Pinger :=
  {| addr := addr p; Count := Count p; Timeout := Timeout p;
     privileged := privileged p; hooks := hooks p;
     PacketsSent := sent; PacketsRecv := recv |}.
End ping.

Module ssh.
Definition Signer : Type := string.
Inductive AuthMethod : Type :=
| Password (secret : string)
| PublicKeys (key : Signer).
Record ClientConfig : Type := {
  User : string;
  Auth : list AuthMethod;
  (* hostname, remote address, key *)
  HostKeyCallback : string -> string -> string -> option error
}.
(** Handles of an open connection and of a session on it. *)
Definition Client : Type := nat.
Definition Session : Type := nat.
End ssh.

(** ** Configuration *)

Record ServerConfig : Type := {
  Hostname : string;
  Username : string;
  Password : string;
  KeyFile : string;
  ResetCommand : string
}.

Record ProbeConfig : Type := {
  Name : string;
  ProbeURL : string;
  Timeout : string;
  Interval : string;
  DownTimes : Z;
  Server : ServerConfig;
  timeout : time.Duration;
  interval : time.Duration;
  httpClient : option http.Client
}.

Record Config : Type := { Probes : list ProbeConfig }.

Definition DefaultGenerate204ProbeURL : string :=
  "https://www.google.com/generate_204".

Definition set_Name (c : ProbeConfig) (v : string) : ProbeConfig :=
  {| Name := v; ProbeURL := ProbeURL c; Timeout := Timeout c;
     Interval := Interval c; DownTimes := DownTimes c; Server := Server c;
     timeout := timeout c; interval := interval c; httpClient := httpClient c |}.
Definition set_ProbeURL (c : ProbeConfig) (v : string) : ProbeConfig :=
  {| Name := Name c; ProbeURL := v; Timeout := Timeout c;
     Interval := Interval c; DownTimes := DownTimes c; Server := Server c;
     timeout := timeout c; interval := interval c; httpClient := httpClient c |}.
Definition set_timeout (c : ProbeConfig) (v : time.Duration) : ProbeConfig :=
  {| Name := Name c; ProbeURL := ProbeURL c; Timeout := Timeout c;
     Interval := Interval c; DownTimes := DownTimes c; Server := Server c;
     timeout := v; interval := interval c; httpClient := httpClient c |}.
Definition set_interval (c : ProbeConfig) (v : time.Duration) : ProbeConfig :=
  {| Name := Name c; ProbeURL := ProbeURL c; Timeout := Timeout c;
     Interval := Interval c; DownTimes := DownTimes c; Server := Server c;
     timeout := timeout c; interval := v; httpClient := httpClient c |}.
Definition set_httpClient (c : ProbeConfig) (v : option http.Client) : ProbeConfig :=
  {| Name := Name c; ProbeURL := ProbeURL c; Timeout := Timeout c;
     Interval := Interval c; DownTimes := DownTimes c; Server := Server c;
     timeout := timeout c; interval := interval c; httpClient := v |}.

(** ** The outside world during one tick *)

Record World : Type := {
  (* go-ping *)
  ping_NewPinger : string -> result ping.Pinger;
  Pinger_Run : ping.Pinger -> Z * Z;          (* PacketsSent, PacketsRecv *)
  (* net/http *)
  http_NewRequest : string -> string -> result http.Request;
  Client_Do : http.Client -> http.Request -> result http.Response;
  (* io/ioutil and x/crypto/ssh *)
  ioutil_ReadFile : string -> result string;
  ssh_ParsePrivateKey : string -> result ssh.Signer;
  ssh_Dial : string -> string -> ssh.ClientConfig -> result ssh.Client;
  Client_NewSession : ssh.Client -> result ssh.Session;
  Session_Run : ssh.Session -> string -> string * option error
}.

(** ** Traces and the monad of the program *)

Inductive Func : Type := FpingProbe | FrequestProbe | FresetServer.

Inductive LogLine : Type :=
| LogStarting (name : string)
| LogProbeError (name : string) (e : error) (counter : Z)
| LogProbeSuccess (name : string)
| LogResetting (name : string)
| LogOutput (s : string)
| LogResetError (name : string) (e : error).

Inductive Event : Type :=
| Enter (f : Func)                       (* the function is entered *)
| EvNewPinger (target : string)
| EvPingRun (p : ping.Pinger)
| EvNewRequest (method url : string)
| EvHTTPDo (c : http.Client) (req : http.Request)
| EvBodyDrain
| EvReadFile (file : string)
| EvDial (network addr : string) (cfg : ssh.ClientConfig)
| EvNewSession (c : ssh.Client)
| EvSessionRun (s : ssh.Session) (cmd : string)
| EvSessionClose (s : ssh.Session)
| EvNewTicker (d : time.Duration)
| EvTickerStop
| EvLog (l : LogLine).

Inductive Outcome (A : Type) : Type :=
| Returns (a : A)
| Panics (msg : string).
Arguments Returns {A} a.
Arguments Panics {A} msg.

(** A computation: the events it caused, and how it ended. *)
Definition M (A : Type) : Type := (list Event * Outcome A)%type.

Definition ret {A} (a : A) : M A := ([], Returns a).

Definition bind {A B} (m : M A) (f : A -> M B) : M B :=
  match m with
  | (t, Returns a) => let (t', r) := f a in ((t ++ t')%list, r)
  | (t, Panics msg) => (t, Panics msg)
  end.

Definition emit (e : Event) : M unit := ([e], Returns tt).
Definition panic {A} (msg : string) : M A := ([], Panics msg).
Definition log_Println (l : LogLine) : M unit := emit (EvLog l).

Definition trace {A} (m : M A) : list Event := fst m.
Definition outcome {A} (m : M A) : Outcome A := snd m.

Declare Scope go_scope.
Delimit Scope go_scope with go.
Notation "x <- m ;; k" := (bind m (fun x => k))
  (at level 61, m at next level, right associativity) : go_scope.
Notation "m ;; k" := (bind m (fun _ => k))
  (at level 61, right associativity) : go_scope.
Notation "' p <- m ;; k" := (bind m (fun x => match x with p => k end))
  (at level 61, p pattern, m at next level, right associativity) : go_scope.
Local Open Scope go_scope.

(** ** The program *)

Definition nonempty (s : string) : bool := negb (String.eqb s "").

(** [PublicKeyFile]: the key of a file as an authentication method. *)
Definition PublicKeyFile (w : World) (file : string) : M (result ssh.AuthMethod) :=
  emit (EvReadFile file) ;;
  match ioutil_ReadFile w file with
  | Err e => ret (Err e)
  | Ok buffer =>
      match ssh_ParsePrivateKey w buffer with
      | Err e => ret (Err e)
      | Ok key => ret (Ok (ssh.PublicKeys key))
      end
  end.

(** The address [resetServer] dials. *)
Definition dialAddr (hostname : string) : string :=
  if 0 <=? strings.LastIndex hostname ":" then hostname
  else (hostname ++ ":22")%string.

(** [resetServer]: run the reset command on the server over ssh; the
    captured standard output and the error. *)
Definition resetServer (w : World) (conf : ProbeConfig) : M (string * option error) :=
  emit (Enter FresetServer) ;;
  let method : list ssh.AuthMethod := [] in
  let method :=
    if nonempty (Password (Server conf))
    then (method ++ [ssh.Password (Password (Server conf))])%list
    else method in
  r <- (if nonempty (KeyFile (Server conf))
        then
          a <- PublicKeyFile w (KeyFile (Server conf)) ;;
          match a with
          | Err e => ret (Err e)
          | Ok authMethod => ret (Ok (method ++ [authMethod])%list)
          end
        else ret (Ok method)) ;;
  match r with
  | Err e => ret ("", Some e)
  | Ok method =>
      let config :=
        {| ssh.User := Username (Server conf);
           ssh.Auth := method;
           ssh.HostKeyCallback := fun _ _ _ => None |} in
      let addr := dialAddr (Hostname (Server conf)) in
      emit (EvDial "tcp" addr config) ;;
      match ssh_Dial w "tcp" addr config with
      | Err e => ret ("", Some e)
      | Ok client =>
          emit (EvNewSession client) ;;
          match Client_NewSession w client with
          | Err e => ret ("", Some e)
          | Ok session =>
              emit (EvSessionRun session (ResetCommand (Server conf))) ;;
              let (b, err) := Session_Run w session (ResetCommand (Server conf)) in
              emit (EvSessionClose session) ;;   (* the deferred Close *)
              ret (b, err)
          end
      end
  end.

(** [pingProbe]: three echo requests to the host after "ping ". *)
Definition pingProbe (verbose : bool) (w : World) (conf : ProbeConfig) : M (option error) :=
  emit (Enter FpingProbe) ;;
  let parts := strings.SplitN (ProbeURL conf) " " 2 in
  if Z.of_nat (List.length parts) <? 2 then panic "malformed ping probe url"
  else
    let target := nth 1 parts "" in
    emit (EvNewPinger target) ;;
    match ping_NewPinger w target with
    | Err e => ret (Some e)
    | Ok pinger =>
        let pinger := ping.SetPrivileged pinger true in
        let pinger := ping.setCount pinger 3 in
        let pinger := ping.setTimeout pinger (5 * time.Second) in
        let pinger := if verbose then ping.setHooks pinger else pinger in
        emit (EvPingRun pinger) ;;
        let (sent, recv) := Pinger_Run w pinger in
        let pinger := ping.setStats pinger sent recv in
        if ping.PacketsRecv pinger <? ping.Count pinger
        then ret (Some ErrorPingProbeUnfinished)
        else ret None
    end.

(** [requestProbe]: one GET of the probe URL.  It stores the client it
    creates in the configuration, which it therefore returns. *)
Definition requestProbe (w : World) (conf : ProbeConfig) : M (ProbeConfig * option error) :=
  emit (Enter FrequestProbe) ;;
  emit (EvNewRequest http.MethodGet (ProbeURL conf)) ;;
  match http_NewRequest w http.MethodGet (ProbeURL conf) with
  | Err e => ret (conf, Some e)
  | Ok req =>
      let client :=
        match httpClient conf with
        | None => {| http.Timeout := timeout conf |}
        | Some c => c
        end in
      let conf := set_httpClient conf (Some client) in
      emit (EvHTTPDo client req) ;;
      match Client_Do w client req with
      | Err e => ret (conf, Some e)
      | Ok resp =>
          let err : option error := None in     (* Do answered no error *)
          (match http.Body resp with
           | Some _ => emit EvBodyDrain          (* ReadAll and Close *)
           | None => ret tt
           end) ;;
          if http.StatusCode resp =? http.StatusOK then ret (conf, None)
          else if negb (http.StatusCode resp =? http.StatusNoContent)
          then ret (conf, Some ErrorStatusCodeIsNot204)
          else ret (conf, err)
      end
  end.

(** The state of one [loopCheck]: the configuration it points to and its
    counter. *)
Record State : Type := { st_conf : ProbeConfig; counter : Z }.

(** Lines 212-216 of the tick: the probe, chosen by the prefix. *)
Definition probe (verbose : bool) (w : World) (conf : ProbeConfig)
  : M (ProbeConfig * option error) :=
  if strings.HasPrefix (ProbeURL conf) "ping "
  then err <- pingProbe verbose w conf ;; ret (conf, err)
  else requestProbe w conf.

(** Lines 217-226: the counter after the probe. *)
Definition mark (verbose : bool) (conf : ProbeConfig) (err : option error) (counter : Z)
  : M Z :=
  match err with
  | Some e =>
      let counter := GoInt.incr counter in
      log_Println (LogProbeError (Name conf) e counter) ;;
      ret counter
  | None =>
      let counter := 0 in
      (if verbose then log_Println (LogProbeSuccess (Name conf)) else ret tt) ;;
      ret counter
  end.

(** Lines 227-240: the reset of the server once the counter is at the
    configured number of down times. *)
Definition remediate (w : World) (conf : ProbeConfig) (counter : Z) : M Z :=
  if counter >=? DownTimes conf then
    log_Println (LogResetting (Name conf)) ;;
    '(s, err) <- resetServer w conf ;;
    log_Println (LogOutput s) ;;
    match err with
    | None => ret 0
    | Some e =>
        log_Println (LogResetError (Name conf) e) ;;
        ret counter
    end
  else ret counter.

(** The first two blocks: probe, then count. *)
Definition probeStep (verbose : bool) (w : World) (st : State) : M State :=
  '(conf, err) <- probe verbose w (st_conf st) ;;
  counter <- mark verbose conf err (counter st) ;;
  ret {| st_conf := conf; counter := counter |}.

(** The body of [case <-ticker.C]. *)
Definition tick (verbose : bool) (w : World) (st : State) : M State :=
  st1 <- probeStep verbose w st ;;
  counter <- remediate w (st_conf st1) (counter st1) ;;
  ret {| st_conf := st_conf st1; counter := counter |}.

(** What one [select] of the loop receives: the closed stop channel, or
    a tick, with the world as it is during that tick. *)
Inductive Select : Type :=
| stopCh
| tickerC (w : World).

Inductive LoopStatus : Type :=
| Waiting      (* blocked in [select], nothing more to receive *)
| Exited.      (* left the loop by [break loop] *)

(** The [for { select { ... } }] loop over what the selects receive. *)
Fixpoint loop (verbose : bool) (evs : list Select) (st : State) : M (LoopStatus * State) :=
  match evs with
  | [] => ret (Waiting, st)
  | stopCh :: _ => ret (Exited, st)
  | tickerC w :: evs' =>
      st' <- tick verbose w st ;;
      loop verbose evs' st'
  end.

(** [loopCheck].  [time.NewTicker] panics on a duration that is not
    positive; the deferred [ticker.Stop] runs when the loop is left. *)
Definition loopCheck (verbose : bool) (evs : list Select) (conf : ProbeConfig)
  : M (LoopStatus * State) :=
  emit (EvNewTicker (interval conf)) ;;
  if interval conf <=? 0 then panic "non-positive interval for NewTicker"
  else
    log_Println (LogStarting (Name conf)) ;;
    let counter := 0 in
    '(status, st) <- loop verbose evs {| st_conf := conf; counter := counter |} ;;
    match status with
    | Exited => emit EvTickerStop ;; ret (status, st)
    | Waiting => ret (status, st)
    end.

(** ** Start-up: [main] up to the launch of the loops *)

(** What [main] reads: the flags, the configuration file and the two
    parsers it calls. *)
Record Startup : Type := {
  flag_config : string;
  flag_verbose : bool;
  os_Open : string -> result nat;
  ioutil_ReadAll : nat -> result string;
  yaml_Unmarshal : string -> result Config;
  time_ParseDuration : string -> result time.Duration
}.

(** The two ways [main] ends the process. *)
Inductive Exit : Type :=
| os_Exit (code : Z)
| log_Fatal (e : error).

(** The body of [for i := range conf.Probes]. *)
Definition prepare (env : Startup) (p : ProbeConfig) : Exit + ProbeConfig :=
  let p := if String.eqb (Name p) "" then set_Name p (Hostname (Server p)) else p in
  let p := if String.eqb (ProbeURL p) ""
           then set_ProbeURL p DefaultGenerate204ProbeURL else p in
  match time_ParseDuration env (Timeout p) with
  | Err e => inl (log_Fatal e)
  | Ok d =>
      let p := set_timeout p d in
      match time_ParseDuration env (Interval p) with
      | Err e => inl (log_Fatal e)
      | Ok d =>
          let p := set_interval p d in
          if DownTimes p <=? 0 then inl (log_Fatal (errorNew "invalid down times"))
          else inr p
      end
  end.

Fixpoint prepareAll (env : Startup) (ps : list ProbeConfig) : Exit + list ProbeConfig :=
  match ps with
  | [] => inr []
  | p :: ps' =>
      match prepare env p with
      | inl x => inl x
      | inr p' =>
          match prepareAll env ps' with
          | inl x => inl x
          | inr ps'' => inr (p' :: ps'')
          end
      end
  end.

(** [main] before [stopCh] is made: the process ends, or the probes are
    ready to be watched. *)
Definition startup (env : Startup) : Exit + list ProbeConfig :=
  if String.eqb (flag_config env) "" then inl (os_Exit 1)
  else
    match os_Open env (flag_config env) with
    | Err e => inl (log_Fatal e)
    | Ok confFile =>
        match ioutil_ReadAll env confFile with
        | Err e => inl (log_Fatal e)
        | Ok data =>
            match yaml_Unmarshal env data with
            | Err e => inl (log_Fatal e)
            | Ok conf =>
                if Z.of_nat (List.length (Probes conf)) <=? 0
                then inl (log_Fatal (errorNew "no probes configured"))
                else prepareAll env (Probes conf)
            end
        end
    end.

(** [main]: after a start-up that did not end the process, one
    [loopCheck] per probe, each with the selects of its own goroutine
    ([sched i] for the [i]-th probe). *)
Fixpoint launch (verbose : bool) (sched : nat -> list Select) (i : nat)
  (ps : list ProbeConfig) : list (M (LoopStatus * State)) :=
  match ps with
  | [] => []
  | p :: ps' => loopCheck verbose (sched i) p :: launch verbose sched (S i) ps'
  end.

Definition main (env : Startup) (sched : nat -> list Select)
  : Exit + list (M (LoopStatus * State)) :=
  match startup env with
  | inl x => inl x
  | inr ps => inr (launch (flag_verbose env) sched 0 ps)
  end.

(** ** The single-probe program of [main.go] *)

Module v1.

Definition Generate204URL : string := "https://www.google.com/generate_204".

Record ServerConfig : Type := {
  Hostname : string;
  Username : string;
  Password : string;
  ResetCommand : string
}.

Record Config : Type := {
  Interval : string;
  DownTimes : Z;
  interval : time.Duration;
  Server : ServerConfig
}.

(** The world of this program: [http.Get] and the ssh calls. *)
Record World : Type := {
  http_Get : string -> result http.Response;
  ssh_Dial : string -> string -> ssh.ClientConfig -> result ssh.Client;
  Client_NewSession : ssh.Client -> result ssh.Session;
  Session_Run : ssh.Session -> string -> string * option error
}.

Definition resetServer (w : World) (conf : Config) : M (string * option error) :=
  emit (Enter FresetServer) ;;
  let config :=
    {| ssh.User := Username (Server conf);
       ssh.Auth := [ssh.Password (Password (Server conf))];
       ssh.HostKeyCallback := fun _ _ _ => None |} in
  let addr :=
    if 0 <=? strings.LastIndex (Hostname (Server conf)) ":"
    then Hostname (Server conf)
    else (Hostname (Server conf) ++ ":22")%string in
  emit (EvDial "tcp" addr config) ;;
  match ssh_Dial w "tcp" addr config with
  | Err e => ret ("", Some e)
  | Ok client =>
      emit (EvNewSession client) ;;
      match Client_NewSession w client with
      | Err e => ret ("", Some e)
      | Ok session =>
          emit (EvSessionRun session (ResetCommand (Server conf))) ;;
          let (b, err) := Session_Run w session (ResetCommand (Server conf)) in
          emit (EvSessionClose session) ;;
          ret (b, err)
      end
  end.

Definition request204 (w : World) : M (option error) :=
  emit (Enter FrequestProbe) ;;
  match http_Get w Generate204URL with
  | Err e => ret (Some e)
  | Ok resp =>
      let err : option error := None in
      (match http.Body resp with
       | Some _ => emit EvBodyDrain
       | None => ret tt
       end) ;;
      if negb (http.StatusCode resp =? http.StatusNoContent)
      then ret (Some ErrorStatusCodeIsNot204)
      else ret err
  end.

(** Lines 117-123: the probe and the counter after it. *)
Definition probeStep (w : World) (counter : Z) : M Z :=
  err <- request204 w ;;
  match err with
  | Some _ => ret (GoInt.incr counter)
  | None => ret 0
  end.

(** Lines 124-135. *)
Definition remediate (w : World) (conf : Config) (counter : Z) : M Z :=
  if counter >=? DownTimes conf then
    log_Println (LogResetting "") ;;
    '(s, err) <- resetServer w conf ;;
    log_Println (LogOutput s) ;;
    match err with
    | None => ret 0
    | Some _ => ret counter
    end
  else ret counter.

(** The body of [for range ticker.C]. *)
Definition tick (w : World) (conf : Config) (counter : Z) : M Z :=
  counter <- probeStep w counter ;;
  remediate w conf counter.

(** [for range ticker.C]: the ticker's channel is never closed, so the
    loop has no exit; over the ticks received so far it leaves the
    counter. *)
Fixpoint loop (ws : list World) (conf : Config) (counter : Z) : M Z :=
  match ws with
  | [] => ret counter
  | w :: ws' =>
      counter <- tick w conf counter ;;
      loop ws' conf counter
  end.

(** [loopCheck] of [main.go]. *)
Definition loopCheck (ws : list World) (conf : Config) : M Z :=
  emit (EvNewTicker (interval conf)) ;;
  if interval conf <=? 0 then panic "non-positive interval for NewTicker"
  else
    let counter := 0 in
    loop ws conf counter.

(** What [main] of [main.go] reads. *)
Record Startup : Type := {
  flag_config : string;
  os_Open : string -> result nat;
  ioutil_ReadAll : nat -> result string;
  yaml_Unmarshal : string -> result Config;
  time_ParseDuration : string -> result time.Duration
}.

(** How this [main] ends before its loop: [os.Exit] or a panic. *)
Inductive Exit : Type :=
| os_Exit (code : Z)
| panicked (e : error).

Definition set_interval (c : Config) (d : time.Duration) : Config :=
  {| Interval := Interval c; DownTimes := DownTimes c; interval := d;
     Server := Server c |}.

(** [main] of [main.go] up to the call of [loopCheck]. *)
Definition startup (env : Startup) : Exit + Config :=
  if String.eqb (flag_config env) "" then inl (os_Exit 1)
  else
    match os_Open env (flag_config env) with
    | Err e => inl (panicked e)
    | Ok confFile =>
        match ioutil_ReadAll env confFile with
        | Err e => inl (panicked e)
        | Ok data =>
            match yaml_Unmarshal env data with
            | Err e => inl (panicked e)
            | Ok conf =>
                match time_ParseDuration env (Interval conf) with
                | Err e => inl (panicked e)
                | Ok d =>
                    let conf := set_interval conf d in
                    if DownTimes conf <=? 0
                    then inl (panicked (errorNew "invalid down times"))
                    else inr conf
                end
            end
        end
    end.

End v1.

(** How many times a trace enters [resetServer]. *)
Definition resets (t : list Event) : nat :=
  List.length (filter (fun e => match e with Enter FresetServer => true | _ => false end) t).

(** ** Sample configurations and worlds *)

Definition sample_server : ServerConfig :=
  {| Hostname := "router"; Username := "root"; Password := "secret";
     KeyFile := ""; ResetCommand := "reboot" |}.

Definition sample_conf (url : string) (down : Z) : ProbeConfig :=
  {| Name := "router"; ProbeURL := url; Timeout := "5s"; Interval := "10s";
     DownTimes := down; Server := sample_server;
     timeout := 5 * time.Second; interval := 10 * time.Second;
     httpClient := None |}.

Definition sample_pinger (target : string) : ping.Pinger :=
  {| ping.addr := target; ping.Count := -1;
     ping.Timeout := 100000 * time.Second;
     ping.privileged := false; ping.hooks := false;
     ping.PacketsSent := 0; ping.PacketsRecv := 0 |}.

(** A world in which every GET answers [status], every ping run gets
    [recv] replies, and the reset command ends with [reset]. *)
Definition sample_world (status recv : Z) (reset : option error) : World :=
  {| ping_NewPinger := fun target => Ok (sample_pinger target);
     Pinger_Run := fun p => (ping.Count p, recv);
     http_NewRequest := fun m u => Ok {| http.Method := m; http.URL := u |};
     Client_Do := fun _ _ => Ok {| http.StatusCode := status; http.Body := Some "" |};
     ioutil_ReadFile := fun _ => Err (libError "no such file");
     ssh_ParsePrivateKey := fun _ => Err (libError "no key found");
     ssh_Dial := fun _ _ _ => Ok 1%nat;
     Client_NewSession := fun _ => Ok 1%nat;
     Session_Run := fun _ _ => ("done", reset) |}.

Definition world_up : World := sample_world 204 3 None.
Definition world_down : World := sample_world 503 2 (Some (libError "exit status 1")).
Definition world_down_reset_ok : World := sample_world 503 2 None.

Definition sample_state (url : string) (down c : Z) : State :=
  {| st_conf := sample_conf url down; counter := c |}.

(** A start-up environment whose configuration file holds [ps]. *)
Definition sample_startup (ps : list ProbeConfig) (d : time.Duration) : Startup :=
  {| flag_config := "config.yml"; flag_verbose := false;
     os_Open := fun _ => Ok 3%nat;
     ioutil_ReadAll := fun _ => Ok "probes: ...";
     yaml_Unmarshal := fun _ => Ok {| Probes := ps |};
     time_ParseDuration := fun _ => Ok d |}.

(** The monitor of "http://router/health" after [c] failed probes. *)
Definition sample_failing (down c : Z) : State :=
  {| st_conf := set_httpClient (sample_conf "http://router/health" down)
                  (Some {| http.Timeout := 5 * time.Second |});
     counter := c |}.

(** A world in which the probe fails whatever the configuration. *)
Definition always_fails (verbose : bool) (w : World) : Prop :=
  forall conf, exists conf' e, outcome (probe verbose w conf) = Returns (conf', Some e).

(** A world in which the probe succeeds whatever the configuration. *)
Definition always_succeeds (verbose : bool) (w : World) : Prop :=
  forall conf, exists conf', outcome (probe verbose w conf) = Returns (conf', None).

(** The client [requestProbe] uses under a configuration. *)
Definition clientOf (conf : ProbeConfig) : http.Client :=
  match httpClient conf with
  | None => {| http.Timeout := timeout conf |}
  | Some c => c
  end.

(** A sample world and configuration of [main.go]. *)
Definition v1_sample_world (status : Z) (reset : option error) : v1.World :=
  {| v1.http_Get := fun _ => Ok {| http.StatusCode := status; http.Body := Some "" |};
     v1.ssh_Dial := fun _ _ _ => Ok 1%nat;
     v1.Client_NewSession := fun _ => Ok 1%nat;
     v1.Session_Run := fun _ _ => ("done", reset) |}.

Definition v1_sample_conf (down : Z) : v1.Config :=
  {| v1.Interval := "10s"; v1.DownTimes := down;
     v1.interval := 10 * time.Second;
     v1.Server := {| v1.Hostname := "router"; v1.Username := "root";
                     v1.Password := "secret"; v1.ResetCommand := "reboot" |} |}.

(** The configuration [resetServer] dials with under [sample_server]. *)
Definition sample_ssh_config : ssh.ClientConfig :=
  {| ssh.User := "root"; ssh.Auth := [ssh.Password "secret"];
     ssh.HostKeyCallback := fun _ _ _ => None |}.

(** [sample_conf] with a key file beside the password. *)
Definition sample_conf_key (url keyfile : string) : ProbeConfig :=
  {| Name := "router"; ProbeURL := url; Timeout := "5s"; Interval := "10s";
     DownTimes := 3;
     Server := {| Hostname := "router"; Username := "root"; Password := "secret";
                  KeyFile := keyfile; ResetCommand := "reboot" |};
     timeout := 5 * time.Second; interval := 10 * time.Second; httpClient := None |}.

(** The lines a trace writes to the log, in order. *)
Fixpoint logs (t : list Event) : list LogLine :=
  match t with
  | [] => []
  | EvLog l :: t' => l :: logs t'
  | _ :: t' => logs t'
  end.

(** ** Tactics *)

(** Case analysis on whatever the goal still matches on. *)
Ltac break_match :=
  match goal with
  | |- context [match ?x with _ => _ end] => destruct x eqn:?
  end.

(** Case analysis on the next answer of the world. *)
Ltac break_world :=
  match goal with
  | |- context [ioutil_ReadFile ?w ?f] => destruct (ioutil_ReadFile w f) eqn:?
  | |- context [ssh_ParsePrivateKey ?w ?b] => destruct (ssh_ParsePrivateKey w b) eqn:?
  | |- context [ssh_Dial ?w ?n ?a ?c] => destruct (ssh_Dial w n a c) eqn:?
  | |- context [Client_NewSession ?w ?c] => destruct (Client_NewSession w c) eqn:?
  | |- context [Session_Run ?w ?s ?c] => destruct (Session_Run w s c) eqn:?
  | |- context [v1.ssh_Dial ?w ?n ?a ?c] => destruct (v1.ssh_Dial w n a c) eqn:?
  | |- context [v1.Client_NewSession ?w ?c] => destruct (v1.Client_NewSession w c) eqn:?
  | |- context [v1.Session_Run ?w ?s ?c] => destruct (v1.Session_Run w s c) eqn:?
  end.

Ltac run := cbn [bind ret emit panic log_Println trace outcome fst snd app negb].

(** Settles [In (Enter f) l <-> f = g] on an explicit list [l]. *)
Ltac entered :=
  cbn [In app];
  split;
  [ let H := fresh in
    intros H; repeat destruct H as [H|H];
    try discriminate; try contradiction; try (injection H as <-; reflexivity)
  | intros ->; auto 20 ].

(** Settles [In e l -> P] on an explicit list [l]. *)
Ltac in_cases H :=
  cbn [In app trace outcome fst snd ret emit log_Println bind] in H;
  repeat match type of H with
         | _ \/ _ => destruct H as [H|H]; [try discriminate|]
         end;
  try discriminate; try contradiction.

(** * Properties *)

(** ** Go's [int] *)

Lemma incr_no_overflow (x : Z) :
  GoInt.MinInt <= x + 1 <= GoInt.MaxInt -> GoInt.incr x = x + 1.
Proof.
  unfold GoInt.incr, GoInt.wrap, GoInt.MinInt, GoInt.MaxInt, GoInt.bits.
  intros H.
  replace (2 ^ (64 - 1)) with 9223372036854775808 in * by reflexivity.
  replace (2 ^ 64) with 18446744073709551616 by reflexivity.
  rewrite Z.mod_small by lia. lia.
Qed.

Lemma incr_MaxInt : GoInt.incr GoInt.MaxInt = GoInt.MinInt.
Proof. reflexivity. Qed.

(** ** The strings functions *)

Example SplitN_ping : strings.SplitN "ping 10.0.0.1" " " 2 = ["ping"; "10.0.0.1"].
Proof. reflexivity. Qed.

Example SplitN_ping_spaces : strings.SplitN "ping a b" " " 2 = ["ping"; "a b"].
Proof. reflexivity. Qed.

Example SplitN_ping_empty : strings.SplitN "ping " " " 2 = ["ping"; ""].
Proof. reflexivity. Qed.

Example SplitN_nosep : strings.SplitN "ping" " " 2 = ["ping"].
Proof. reflexivity. Qed.

Example SplitN_all : strings.SplitN "a b c" " " (-1) = ["a"; "b"; "c"].
Proof. reflexivity. Qed.

Example LastIndex_port : strings.LastIndex "router:2222" ":" = 6.
Proof. reflexivity. Qed.

Example LastIndex_none : strings.LastIndex "router" ":" = -1.
Proof. reflexivity. Qed.

Example LastIndex_v6 : strings.LastIndex "::1" ":" = 1.
Proof. reflexivity. Qed.

Lemma prefix_empty (s : string) : String.prefix "" s = true.
Proof. destruct s; reflexivity. Qed.

(** [HasPrefix] says what it should. *)
Lemma HasPrefix_spec (s p : string) :
  strings.HasPrefix s p = true <-> exists rest, s = (p ++ rest)%string.
Proof.
  unfold strings.HasPrefix. revert s.
  induction p as [|a p IH]; intros s.
  - rewrite prefix_empty. split; [intros _; exists s; reflexivity | reflexivity].
  - destruct s as [|b s]; simpl.
    + split; [discriminate | intros [rest H]; discriminate].
    + destruct (ascii_dec a b) as [->|Hab].
      * rewrite IH. split; intros [rest H]; exists rest.
        -- now rewrite H.
        -- now inversion H.
      * split; [discriminate | intros [rest H]; inversion H; congruence].
Qed.

(** A string that starts with "ping " splits in two at its first space. *)
Lemma SplitN_ping_prefix (host : string) :
  strings.SplitN ("ping " ++ host) " " 2 = ["ping"; host].
Proof.
  assert (Hi : strings.Index ("ping " ++ host) " " = 4).
  { unfold strings.Index. simpl. now rewrite prefix_empty. }
  change (strings.SplitN ("ping " ++ host) " " 2)
    with (strings.genSplit 1 " " ("ping " ++ host)).
  unfold strings.genSplit. rewrite Hi. reflexivity.
Qed.

Lemma prefix_char (a b : ascii) (s : string) :
  String.prefix (String a "") (String b s) = Ascii.eqb a b.
Proof.
  cbn [String.prefix]. destruct (ascii_dec a b) as [->|Hab].
  - now rewrite prefix_empty, Ascii.eqb_refl.
  - symmetry. now apply Ascii.eqb_neq.
Qed.

Lemma lastIndexFrom_colon (s : string) : forall i acc,
  -1 <= acc -> 0 <= i ->
  (0 <=? strings.lastIndexFrom i s ":" acc) =
  (0 <=? acc) || strings.contains_char ":" s.
Proof.
  induction s as [|c s IH]; intros i acc Hacc Hi.
  - simpl. now rewrite orb_false_r.
  - cbn [strings.lastIndexFrom strings.contains_char].
    rewrite prefix_char.
    destruct (Ascii.eqb ":" c); rewrite IH by lia.
    + replace (0 <=? i) with true by (symmetry; apply Z.leb_le; lia).
      simpl. now rewrite orb_true_r.
    + reflexivity.
Qed.

(** [LastIndex(s, ":") >= 0] is: [s] contains a colon. *)
Lemma LastIndex_colon (s : string) :
  (0 <=? strings.LastIndex s ":") = strings.contains_char ":" s.
Proof.
  unfold strings.LastIndex. now rewrite lastIndexFrom_colon by lia.
Qed.

(** ** The trace monad *)

Lemma trace_bind {A B} (m : M A) (f : A -> M B) :
  trace (bind m f) =
  (trace m ++ match outcome m with
              | Returns a => trace (f a)
              | Panics _ => []
              end)%list.
Proof.
  destruct m as [t [a|msg]]; unfold bind, trace, outcome; simpl.
  - now destruct (f a).
  - now rewrite app_nil_r.
Qed.

Lemma outcome_bind {A B} (m : M A) (f : A -> M B) :
  outcome (bind m f) =
  match outcome m with
  | Returns a => outcome (f a)
  | Panics msg => Panics msg
  end.
Proof.
  destruct m as [t [a|msg]]; unfold bind, outcome; simpl; [now destruct (f a)|reflexivity].
Qed.

(** ** [pingProbe] *)

(** On a probe URL "ping <host>", [pingProbe] asks for a pinger of
    [host] and runs it with count 3 and a timeout of five seconds, as a
    privileged pinger; it answers by the replies received. *)
Lemma pingProbe_ping (verbose : bool) (w : World) (conf : ProbeConfig) (host : string) :
  ProbeURL conf = ("ping " ++ host)%string ->
  match ping_NewPinger w host with
  | Err e =>
      pingProbe verbose w conf =
      ([Enter FpingProbe; EvNewPinger host], Returns (Some e))
  | Ok p0 =>
      exists p,
        ping.addr p = ping.addr p0 /\
        ping.Count p = 3 /\
        ping.Timeout p = 5 * time.Second /\
        ping.privileged p = true /\
        pingProbe verbose w conf =
        ([Enter FpingProbe; EvNewPinger host; EvPingRun p],
         Returns (if snd (Pinger_Run w p) <? 3
                  then Some ErrorPingProbeUnfinished else None))
  end.
Proof.
  intros Hurl. unfold pingProbe. rewrite Hurl, SplitN_ping_prefix.
  cbn [List.length Z.of_nat Z.ltb Z.compare Pos.of_succ_nat Pos.succ Pos.compare
       Pos.compare_cont nth].
  destruct (ping_NewPinger w host) as [p0|e]; [|reflexivity].
  set (p1 := ping.setTimeout (ping.setCount (ping.SetPrivileged p0 true) 3)
                             (5 * time.Second)).
  exists (if verbose then ping.setHooks p1 else p1).
  repeat split; try (destruct verbose; reflexivity).
  run. destruct (Pinger_Run w _) as [sent recv].
  run. cbn [ping.PacketsRecv ping.setStats].
  replace (ping.Count (ping.setStats (if verbose then ping.setHooks p1 else p1) sent recv))
    with 3 by (destruct verbose; reflexivity).
  destruct (recv <? 3); reflexivity.
Qed.

(** C6.  The ICMP probe [pingProbe], on a probe URL "ping <host>" whose
    host gives a pinger, runs that pinger once with [Count = 3] and a
    [Timeout] of five seconds (5 000 000 000 ns).  It answers success if and
    only if at least [Count] = 3 replies were received; with fewer than 3
    replies, and so with fewer replies than the at most 3 packets sent (2 of
    3, say), it answers the error "ping probe unfinished".  When no pinger
    can be made for the host it answers that error, and no packet is
    sent. *)
Theorem pingProbe_all_or_unfinished
  (verbose : bool) (w : World) (conf : ProbeConfig) (host : string) :
  ProbeURL conf = ("ping " ++ host)%string ->
  (forall p0, ping_NewPinger w host = Ok p0 ->
     exists p,
       trace (pingProbe verbose w conf) =
         [Enter FpingProbe; EvNewPinger host; EvPingRun p] /\
       ping.Count p = 3 /\
       ping.Timeout p = 5000000000 /\
       (snd (Pinger_Run w p) < 3 ->
          outcome (pingProbe verbose w conf) = Returns (Some ErrorPingProbeUnfinished)) /\
       (fst (Pinger_Run w p) <= ping.Count p ->
        snd (Pinger_Run w p) < fst (Pinger_Run w p) ->
          outcome (pingProbe verbose w conf) = Returns (Some ErrorPingProbeUnfinished)) /\
       (outcome (pingProbe verbose w conf) = Returns None <->
          ping.Count p <= snd (Pinger_Run w p))) /\
  (forall e, ping_NewPinger w host = Err e ->
     pingProbe verbose w conf =
       ([Enter FpingProbe; EvNewPinger host], Returns (Some e))).
Proof.
  intros Hurl. pose proof (pingProbe_ping verbose w conf host Hurl) as H.
  split.
  - intros p0 Hp0. rewrite Hp0 in H.
    destruct H as (p & _ & Hc & Ht & _ & Hrun).
    exists p. rewrite Hrun. cbn [trace outcome fst snd].
    split; [reflexivity|]. split; [exact Hc|]. split; [exact Ht|].
    rewrite Hc. destruct (Z.ltb_spec (snd (Pinger_Run w p)) 3) as [Hlt|Hge].
    + split; [reflexivity|]. split; [reflexivity|]. split; [discriminate|lia].
    + split; [lia|]. split; [lia|]. split; [intros _; exact Hge|reflexivity].
  - intros e He. now rewrite He in H.
Qed.

(** Two replies out of three: the probe fails, and is "unfinished". *)
Lemma pingProbe_all_or_unfinished_witness :
  ProbeURL (sample_conf "ping 10.0.0.1" 3) = ("ping " ++ "10.0.0.1")%string /\
  exists p,
    trace (pingProbe false world_down (sample_conf "ping 10.0.0.1" 3)) =
      [Enter FpingProbe; EvNewPinger "10.0.0.1"; EvPingRun p] /\
    ping.Count p = 3 /\
    snd (Pinger_Run world_down p) = 2 /\
    outcome (pingProbe false world_down (sample_conf "ping 10.0.0.1" 3)) =
      Returns (Some ErrorPingProbeUnfinished).
Proof.
  split; [reflexivity|].
  destruct (pingProbe_all_or_unfinished false world_down
              (sample_conf "ping 10.0.0.1" 3) "10.0.0.1" eq_refl) as [H _].
  destruct (H (sample_pinger "10.0.0.1") eq_refl) as (p & Htr & Hc & _ & Hlt & _ & _).
  exists p. split; [exact Htr|]. split; [exact Hc|].
  split; [reflexivity|]. apply Hlt. simpl. lia.
Defined.

(** ** [requestProbe] *)

(** The client [requestProbe] sends the request with: the one stored in
    the configuration, or a new one with the configured timeout. *)
Lemma requestProbe_returns (w : World) (conf : ProbeConfig) :
  exists conf' err, outcome (requestProbe w conf) = Returns (conf', err).
Proof.
  unfold requestProbe. run.
  destruct (http_NewRequest w http.MethodGet (ProbeURL conf)) as [req|e];
    [|eexists; eexists; reflexivity].
  run. destruct (Client_Do w _ req) as [resp|e]; [|eexists; eexists; reflexivity].
  destruct (http.Body resp); run;
    destruct (http.StatusCode resp =? http.StatusOK);
    destruct (http.StatusCode resp =? http.StatusNoContent);
    eexists; eexists; reflexivity.
Qed.

(** C5.  The HTTP probe [requestProbe] always returns, and it returns
    success (a nil error) exactly when the request could be built, the
    client answered a response, and the status of that response is 200 or
    204.  A request that cannot be built and a transport error of the client
    are returned as they are; a response with any other status is returned as
    the error "response status code is not 204". *)
Theorem requestProbe_success_iff_200_or_204 (w : World) (conf : ProbeConfig) :
  exists conf' err,
    outcome (requestProbe w conf) = Returns (conf', err) /\
    (err = None <->
       exists req resp,
         http_NewRequest w "GET" (ProbeURL conf) = Ok req /\
         Client_Do w (match httpClient conf with
                      | None => {| http.Timeout := timeout conf |}
                      | Some c => c
                      end) req = Ok resp /\
         (http.StatusCode resp = 200 \/ http.StatusCode resp = 204)) /\
    (forall e, http_NewRequest w "GET" (ProbeURL conf) = Err e -> err = Some e) /\
    (forall req e,
       http_NewRequest w "GET" (ProbeURL conf) = Ok req ->
       Client_Do w (match httpClient conf with
                    | None => {| http.Timeout := timeout conf |}
                    | Some c => c
                    end) req = Err e ->
       err = Some e) /\
    (forall req resp,
       http_NewRequest w "GET" (ProbeURL conf) = Ok req ->
       Client_Do w (match httpClient conf with
                    | None => {| http.Timeout := timeout conf |}
                    | Some c => c
                    end) req = Ok resp ->
       http.StatusCode resp <> 200 -> http.StatusCode resp <> 204 ->
       err = Some ErrorStatusCodeIsNot204).
Proof.
  unfold requestProbe. change http.MethodGet with "GET".
  change http.StatusOK with 200. change http.StatusNoContent with 204.
  set (client := match httpClient conf with
                 | None => {| http.Timeout := timeout conf |}
                 | Some c => c
                 end).
  destruct (http_NewRequest w "GET" (ProbeURL conf)) as [req|e].
  2:{ exists conf, (Some e). repeat split; try discriminate.
      - intros (? & ? & ? & _); discriminate.
      - now intros ? [= ->]. }
  destruct (Client_Do w client req) as [resp|e] eqn:Hdo.
  2:{ exists (set_httpClient conf (Some client)), (Some e).
      repeat split; try discriminate.
      - intros (? & ? & [= <-] & ? & _); congruence.
      - intros ? ? [= <-] ?; congruence.
      - intros ? ? [= <-] ?; congruence. }
  assert (Hreq : forall req' resp',
            Ok req = Ok req' -> Client_Do w client req' = Ok resp' -> resp' = resp)
    by (intros ? ? [= <-] ?; congruence).
  exists (set_httpClient conf (Some client)).
  exists (if http.StatusCode resp =? 200 then None
          else if negb (http.StatusCode resp =? 204)
               then Some ErrorStatusCodeIsNot204 else None).
  split.
  { destruct (http.Body resp); run;
      destruct (http.StatusCode resp =? 200);
      destruct (http.StatusCode resp =? 204); reflexivity. }
  destruct (Z.eqb_spec (http.StatusCode resp) 200) as [H200|H200];
    [|destruct (Z.eqb_spec (http.StatusCode resp) 204) as [H204|H204]];
    cbn [negb]; (split; [split|]).
  all: try (intros _; exists req, resp; tauto).
  all: try reflexivity.
  all: try discriminate.
  all: try (split; [discriminate|]).
  all: try (split; [intros ? ? [= <-] ?; congruence|]).
  all: try (intros req' resp' Hr Hd; rewrite (Hreq _ _ Hr Hd); congruence).
  intros (req' & resp' & Hr & Hd & Hs). rewrite (Hreq _ _ Hr Hd) in Hs. tauto.
Qed.

(** A successful status, a failing status and a transport error. *)
Lemma requestProbe_success_iff_200_or_204_witness :
  outcome (requestProbe (sample_world 200 0 None) (sample_conf "http://router/health" 3))
    = Returns (set_httpClient (sample_conf "http://router/health" 3)
                 (Some {| http.Timeout := 5 * time.Second |}), None) /\
  exists conf' err,
    outcome (requestProbe world_down (sample_conf "http://router/health" 3))
      = Returns (conf', err) /\
    err = Some ErrorStatusCodeIsNot204.
Proof.
  split; [reflexivity|].
  destruct (requestProbe_success_iff_200_or_204 world_down
              (sample_conf "http://router/health" 3))
    as (conf' & err & Ho & _ & _ & _ & Hother).
  exists conf', err. split; [exact Ho|].
  apply (Hother {| http.Method := "GET"; http.URL := "http://router/health" |}
                {| http.StatusCode := 503; http.Body := Some "" |});
    [reflexivity|reflexivity|simpl; lia|simpl; lia].
Defined.

(** ** [resetServer] *)

Lemma dialAddr_spec (hostname : string) :
  dialAddr hostname =
  if strings.contains_char ":" hostname then hostname else (hostname ++ ":22")%string.
Proof. unfold dialAddr. now rewrite LastIndex_colon. Qed.

(** [resetServer] either stops at a key file it cannot use, before any
    connection, or dials [dialAddr] of the host name once. *)
Lemma resetServer_trace (w : World) (conf : ProbeConfig) :
  exists pre post r,
    resetServer w conf = ((Enter FresetServer :: pre ++ post)%list, Returns r) /\
    (forall network addr cfg, ~ In (EvDial network addr cfg) pre) /\
    (forall network addr cfg, In (EvDial network addr cfg) post ->
       network = "tcp" /\ addr = dialAddr (Hostname (Server conf))) /\
    ((nonempty (KeyFile (Server conf)) = false \/
      exists a, outcome (PublicKeyFile w (KeyFile (Server conf))) = Returns (Ok a)) ->
     exists cfg, In (EvDial "tcp" (dialAddr (Hostname (Server conf))) cfg) post).
Proof.
  unfold resetServer, PublicKeyFile.
  destruct (nonempty (Password (Server conf)));
    destruct (nonempty (KeyFile (Server conf))); run.
  all: repeat (break_world; run).
  all: match goal with
       | |- context [EvReadFile ?f] => exists [EvReadFile f]
       | |- _ => exists []
       end.
  all: eexists; eexists; (split; [reflexivity|]).
  all: cbn [In].
  all: split; [intros ? ? ? H; repeat destruct H as [H|H]; try discriminate; exact H|].
  all: split; [intros ? ? ? H; repeat destruct H as [H|H]; try discriminate;
               try contradiction; injection H as <- <- _; split; reflexivity|].
  all: try (intros _; eexists; left; reflexivity).
  all: intros [H|[? H]]; try discriminate; run; cbn in H; discriminate.
Qed.

Lemma v1_resetServer_trace (w : v1.World) (conf : v1.Config) :
  exists cfg post r,
    v1.resetServer w conf =
      (Enter FresetServer ::
       EvDial "tcp" (dialAddr (v1.Hostname (v1.Server conf))) cfg :: post,
       Returns r) /\
    forall network addr cfg', ~ In (EvDial network addr cfg') post.
Proof.
  unfold v1.resetServer. fold (dialAddr (v1.Hostname (v1.Server conf))). run.
  repeat (break_world; run).
  all: eexists; eexists; eexists; (split; [reflexivity|]).
  all: cbn [In]; intros ? ? ? H; repeat destruct H as [H|H]; try discriminate; exact H.
Qed.

(** C7.  Every connection [resetServer] opens goes, over tcp, to the
    configured host name unchanged when the name contains a ':' and to the
    name followed by ":22" when it contains none; it opens that connection
    whenever no key file is configured or the key file gives a key (with a
    key file it cannot use it returns before connecting).  The [resetServer]
    of [main.go], which has no key file, always opens exactly that
    connection. *)
Theorem resetServer_port_22_by_default
  (w : World) (conf : ProbeConfig) (w1 : v1.World) (conf1 : v1.Config) :
  (forall network addr cfg,
     In (EvDial network addr cfg) (trace (resetServer w conf)) ->
     network = "tcp" /\
     addr = if strings.contains_char ":" (Hostname (Server conf))
            then Hostname (Server conf)
            else (Hostname (Server conf) ++ ":22")%string) /\
  ((nonempty (KeyFile (Server conf)) = false \/
    exists a, outcome (PublicKeyFile w (KeyFile (Server conf))) = Returns (Ok a)) ->
   exists cfg,
     In (EvDial "tcp" (if strings.contains_char ":" (Hostname (Server conf))
                       then Hostname (Server conf)
                       else (Hostname (Server conf) ++ ":22")%string) cfg)
        (trace (resetServer w conf))) /\
  (exists cfg,
     In (EvDial "tcp" (if strings.contains_char ":" (v1.Hostname (v1.Server conf1))
                       then v1.Hostname (v1.Server conf1)
                       else (v1.Hostname (v1.Server conf1) ++ ":22")%string) cfg)
        (trace (v1.resetServer w1 conf1))) /\
  (forall network addr cfg,
     In (EvDial network addr cfg) (trace (v1.resetServer w1 conf1)) ->
     network = "tcp" /\
     addr = if strings.contains_char ":" (v1.Hostname (v1.Server conf1))
            then v1.Hostname (v1.Server conf1)
            else (v1.Hostname (v1.Server conf1) ++ ":22")%string).
Proof.
  rewrite <- !dialAddr_spec.
  destruct (resetServer_trace w conf) as (pre & post & r & -> & Hpre & Hpost & Hdial).
  destruct (v1_resetServer_trace w1 conf1) as (cfg1 & post1 & r1 & -> & Hpost1).
  cbn [trace fst]. repeat split.
  - destruct H as [H|H]; [discriminate|].
    apply in_app_or in H as [H|H]; [now apply Hpre in H|now apply Hpost in H].
  - destruct H as [H|H]; [discriminate|].
    apply in_app_or in H as [H|H]; [now apply Hpre in H|now apply Hpost in H].
  - intros Hkey. destruct (Hdial Hkey) as [cfg Hin].
    exists cfg. right. apply in_or_app. now right.
  - exists cfg1. right. now left.
  - destruct H as [H|[H|H]]; [discriminate|now injection H|now apply Hpost1 in H].
  - destruct H as [H|[H|H]]; [discriminate|now injection H|now apply Hpost1 in H].
Qed.

(** A host name without a port, and one with a port. *)
Lemma resetServer_port_22_by_default_witness :
  (exists cfg, In (EvDial "tcp" "router:22" cfg)
                  (trace (resetServer world_up (sample_conf "ping 10.0.0.1" 3)))) /\
  (exists cfg, In (EvDial "tcp" "10.0.0.1:2222" cfg)
                  (trace (v1.resetServer
                            {| v1.http_Get := fun _ => Err (libError "timeout");
                               v1.ssh_Dial := fun _ _ _ => Err (libError "refused");
                               v1.Client_NewSession := fun _ => Ok 1%nat;
                               v1.Session_Run := fun _ _ => ("", None) |}
                            {| v1.Interval := "10s"; v1.DownTimes := 3;
                               v1.interval := 10 * time.Second;
                               v1.Server :=
                                 {| v1.Hostname := "10.0.0.1:2222";
                                    v1.Username := "root";
                                    v1.Password := "secret";
                                    v1.ResetCommand := "reboot" |} |}))).
Proof.
  pose proof (resetServer_port_22_by_default world_up (sample_conf "ping 10.0.0.1" 3)
    {| v1.http_Get := fun _ => Err (libError "timeout");
       v1.ssh_Dial := fun _ _ _ => Err (libError "refused");
       v1.Client_NewSession := fun _ => Ok 1%nat;
       v1.Session_Run := fun _ _ => ("", None) |}
    {| v1.Interval := "10s"; v1.DownTimes := 3;
       v1.interval := 10 * time.Second;
       v1.Server :=
         {| v1.Hostname := "10.0.0.1:2222"; v1.Username := "root";
            v1.Password := "secret"; v1.ResetCommand := "reboot" |} |})
    as (_ & Hdial & Hv1 & _).
  split; [apply Hdial; left; reflexivity|exact Hv1].
Defined.

(** ** Which functions a computation enters *)

Lemma resetServer_enters (w : World) (conf : ProbeConfig) (f : Func) :
  In (Enter f) (trace (resetServer w conf)) <-> f = FresetServer.
Proof.
  unfold resetServer, PublicKeyFile.
  destruct (nonempty (Password (Server conf)));
    destruct (nonempty (KeyFile (Server conf))); run.
  all: repeat (break_world; run).
  all: entered.
Qed.

Lemma resetServer_returns (w : World) (conf : ProbeConfig) :
  exists s err, outcome (resetServer w conf) = Returns (s, err).
Proof.
  destruct (resetServer_trace w conf) as (pre & post & [s err] & -> & _).
  now exists s, err.
Qed.

Lemma v1_resetServer_enters (w : v1.World) (conf : v1.Config) (f : Func) :
  In (Enter f) (trace (v1.resetServer w conf)) <-> f = FresetServer.
Proof.
  unfold v1.resetServer. run. repeat (break_world; run). all: entered.
Qed.

Lemma v1_resetServer_returns (w : v1.World) (conf : v1.Config) :
  exists s err, outcome (v1.resetServer w conf) = Returns (s, err).
Proof.
  destruct (v1_resetServer_trace w conf) as (cfg & post & [s err] & -> & _).
  now exists s, err.
Qed.

Lemma requestProbe_enters (w : World) (conf : ProbeConfig) (f : Func) :
  In (Enter f) (trace (requestProbe w conf)) <-> f = FrequestProbe.
Proof.
  unfold requestProbe. run.
  destruct (http_NewRequest w http.MethodGet (ProbeURL conf)) as [req|e]; run;
    [|entered].
  destruct (Client_Do w _ req) as [resp|e]; run; [|entered].
  destruct (http.Body resp); run;
    destruct (http.StatusCode resp =? http.StatusOK);
    destruct (http.StatusCode resp =? http.StatusNoContent); run; entered.
Qed.

(** [requestProbe] changes nothing of the configuration but the client. *)
Lemma requestProbe_conf (w : World) (conf conf' : ProbeConfig) (err : option error) :
  outcome (requestProbe w conf) = Returns (conf', err) ->
  conf' = conf \/ exists c, conf' = set_httpClient conf (Some c).
Proof.
  unfold requestProbe. run.
  destruct (http_NewRequest w http.MethodGet (ProbeURL conf)) as [req|e]; run.
  2:{ intros [= <- _]. now left. }
  destruct (Client_Do w _ req) as [resp|e]; run.
  2:{ intros [= <- _]. right. eexists; reflexivity. }
  destruct (http.Body resp); run;
    destruct (http.StatusCode resp =? http.StatusOK);
    destruct (http.StatusCode resp =? http.StatusNoContent); run;
    intros [= <- _]; right; eexists; reflexivity.
Qed.

Lemma pingProbe_enters (verbose : bool) (w : World) (conf : ProbeConfig) (f : Func) :
  strings.HasPrefix (ProbeURL conf) "ping " = true ->
  In (Enter f) (trace (pingProbe verbose w conf)) <-> f = FpingProbe.
Proof.
  intros Hp. apply HasPrefix_spec in Hp as [host Hurl].
  pose proof (pingProbe_ping verbose w conf host Hurl) as H.
  destruct (ping_NewPinger w host).
  - destruct H as (p & _ & _ & _ & _ & ->). cbn [trace fst]. entered.
  - rewrite H. cbn [trace fst]. entered.
Qed.

Lemma pingProbe_returns (verbose : bool) (w : World) (conf : ProbeConfig) :
  strings.HasPrefix (ProbeURL conf) "ping " = true ->
  exists err, outcome (pingProbe verbose w conf) = Returns err.
Proof.
  intros Hp. apply HasPrefix_spec in Hp as [host Hurl].
  pose proof (pingProbe_ping verbose w conf host Hurl) as H.
  destruct (ping_NewPinger w host).
  - destruct H as (p & _ & _ & _ & _ & ->). eexists; reflexivity.
  - rewrite H. eexists; reflexivity.
Qed.

(** [pingProbe] panics exactly on a probe URL without a space. *)
Lemma pingProbe_panics_iff (verbose : bool) (w : World) (conf : ProbeConfig) :
  (exists msg, outcome (pingProbe verbose w conf) = Panics msg) <->
  Z.of_nat (List.length (strings.SplitN (ProbeURL conf) " " 2)) < 2.
Proof.
  unfold pingProbe. run.
  destruct (Z.ltb_spec (Z.of_nat (List.length (strings.SplitN (ProbeURL conf) " " 2))) 2)
    as [Hlt|Hge].
  - split; [intros _; exact Hlt|intros _; eexists; reflexivity].
  - split; [|lia]. intros [msg H]. exfalso. revert H. run.
    destruct (ping_NewPinger w _); run; [|discriminate].
    destruct (Pinger_Run w _). run. destruct (_ <? _); run; discriminate.
Qed.

Example pingProbe_panics_without_space :
  outcome (pingProbe false world_up (sample_conf "ping" 3))
  = Panics "malformed ping probe url".
Proof. reflexivity. Qed.

(** ** One tick *)

(** What the probe leaves of the configuration: all but the client. *)
Lemma probe_returns (verbose : bool) (w : World) (conf : ProbeConfig) :
  exists conf' err,
    outcome (probe verbose w conf) = Returns (conf', err) /\
    (conf' = conf \/ exists c, conf' = set_httpClient conf (Some c)).
Proof.
  unfold probe. destruct (strings.HasPrefix (ProbeURL conf) "ping ") eqn:Hp.
  - destruct (pingProbe_returns verbose w conf Hp) as [err Hr].
    exists conf, err. rewrite outcome_bind, Hr. split; [reflexivity|now left].
  - destruct (requestProbe_returns w conf) as (conf' & err & Hr).
    exists conf', err. split; [exact Hr|]. eapply requestProbe_conf, Hr.
Qed.

Lemma probe_enters (verbose : bool) (w : World) (conf : ProbeConfig) (f : Func) :
  In (Enter f) (trace (probe verbose w conf)) <->
  f = if strings.HasPrefix (ProbeURL conf) "ping " then FpingProbe else FrequestProbe.
Proof.
  unfold probe. destruct (strings.HasPrefix (ProbeURL conf) "ping ") eqn:Hp.
  - rewrite trace_bind. destruct (pingProbe_returns verbose w conf Hp) as [err ->].
    cbn [ret trace fst]. rewrite app_nil_r. now apply pingProbe_enters.
  - apply requestProbe_enters.
Qed.

Lemma mark_spec (verbose : bool) (conf : ProbeConfig) (err : option error) (c : Z) :
  outcome (mark verbose conf err c) =
    Returns (match err with Some _ => GoInt.incr c | None => 0 end) /\
  forall f, ~ In (Enter f) (trace (mark verbose conf err c)).
Proof.
  unfold mark. destruct err as [e|]; [|destruct verbose]; run;
    (split; [reflexivity|]); cbn [In]; intros f H;
    repeat destruct H as [H|H]; try discriminate; exact H.
Qed.

Lemma remediate_below (w : World) (conf : ProbeConfig) (c : Z) :
  c < DownTimes conf -> remediate w conf c = ([], Returns c).
Proof.
  intros H. unfold remediate.
  destruct (Z.geb_spec c (DownTimes conf)); [lia|reflexivity].
Qed.

Lemma remediate_tripped (w : World) (conf : ProbeConfig) (c : Z) :
  DownTimes conf <= c ->
  exists s err,
    outcome (resetServer w conf) = Returns (s, err) /\
    outcome (remediate w conf c) =
      Returns (match err with None => 0 | Some _ => c end) /\
    forall f, In (Enter f) (trace (remediate w conf c)) <-> f = FresetServer.
Proof.
  intros H. unfold remediate.
  destruct (Z.geb_spec c (DownTimes conf)); [|lia].
  destruct (resetServer_returns w conf) as (s & err & Hr).
  exists s, err. split; [exact Hr|].
  pose proof (resetServer_enters w conf) as He.
  destruct (resetServer w conf) as [t o]. cbn [outcome snd] in Hr. subst o.
  cbn [trace fst] in He.
  destruct err as [e|]; run; (split; [reflexivity|]); intros f;
    rewrite <- He; cbn [In]; rewrite !in_app_iff; cbn [In];
    intuition discriminate.
Qed.

Lemma remediate_enters (w : World) (conf : ProbeConfig) (c : Z) (f : Func) :
  In (Enter f) (trace (remediate w conf c)) <->
  f = FresetServer /\ DownTimes conf <= c.
Proof.
  destruct (Z.lt_ge_cases c (DownTimes conf)) as [Hlt|Hge].
  - rewrite remediate_below by exact Hlt. cbn [trace fst In]. split; [tauto|lia].
  - destruct (remediate_tripped w conf c Hge) as (s & err & _ & _ & He).
    rewrite He. tauto.
Qed.

(** The whole tick, block by block: the probe answers [err] and leaves
    the configuration [conf']; the counter after the probe is [c1]; the
    reset, were it run, answers [rerr]. *)
Lemma tick_spec (verbose : bool) (w : World) (st : State) :
  exists conf' err s rerr,
    outcome (probe verbose w (st_conf st)) = Returns (conf', err) /\
    (conf' = st_conf st \/ exists c, conf' = set_httpClient (st_conf st) (Some c)) /\
    outcome (resetServer w conf') = Returns (s, rerr) /\
    let c1 := match err with Some _ => GoInt.incr (counter st) | None => 0 end in
    outcome (probeStep verbose w st) = Returns {| st_conf := conf'; counter := c1 |} /\
    outcome (tick verbose w st) =
      Returns {| st_conf := conf';
                 counter := if c1 >=? DownTimes conf'
                            then match rerr with None => 0 | Some _ => c1 end
                            else c1 |} /\
    forall f,
      In (Enter f) (trace (tick verbose w st)) <->
      f = (if strings.HasPrefix (ProbeURL (st_conf st)) "ping "
           then FpingProbe else FrequestProbe) \/
      (f = FresetServer /\ DownTimes conf' <= c1).
Proof.
  destruct (probe_returns verbose w (st_conf st)) as (conf' & err & Hp & Hconf).
  destruct (resetServer_returns w conf') as (s & rerr & Hr).
  exists conf', err, s, rerr.
  split; [exact Hp|]. split; [exact Hconf|]. split; [exact Hr|].
  intros c1.
  destruct (mark_spec verbose conf' err (counter st)) as [Hm Hme].
  fold c1 in Hm.
  assert (Hps : outcome (probeStep verbose w st) =
                Returns {| st_conf := conf'; counter := c1 |}).
  { unfold probeStep. rewrite outcome_bind, Hp, outcome_bind, Hm. reflexivity. }
  assert (Hpt : forall f, In (Enter f) (trace (probeStep verbose w st)) <->
                          In (Enter f) (trace (probe verbose w (st_conf st)))).
  { intros f. unfold probeStep. rewrite trace_bind, Hp, trace_bind, Hm.
    cbn [ret trace fst]. rewrite app_nil_r, in_app_iff.
    specialize (Hme f). tauto. }
  split; [exact Hps|].
  split.
  - unfold tick. rewrite outcome_bind, Hps. cbn [st_conf counter].
    rewrite outcome_bind.
    destruct (Z.geb_spec c1 (DownTimes conf')) as [Hge|Hlt].
    + destruct (remediate_tripped w conf' c1 Hge) as (s' & rerr' & Hr' & -> & _).
      rewrite Hr in Hr'. injection Hr' as <- <-. reflexivity.
    + rewrite remediate_below by exact Hlt. reflexivity.
  - intros f. unfold tick. rewrite trace_bind, Hps. cbn [st_conf counter].
    rewrite trace_bind.
    assert (Hret : exists c2, outcome (remediate w conf' c1) = Returns c2).
    { destruct (Z.lt_ge_cases c1 (DownTimes conf')) as [Hlt|Hge].
      - rewrite remediate_below by exact Hlt. eexists; reflexivity.
      - destruct (remediate_tripped w conf' c1 Hge) as (? & ? & _ & -> & _).
        eexists; reflexivity. }
    destruct Hret as [c2 ->]. cbn [ret trace fst]. rewrite app_nil_r.
    rewrite in_app_iff, Hpt, probe_enters, remediate_enters. reflexivity.
Qed.

(** The same for the tick of [main.go]. *)
Lemma v1_tick_spec (w : v1.World) (conf : v1.Config) (c : Z) :
  exists err s rerr,
    outcome (v1.request204 w) = Returns err /\
    outcome (v1.resetServer w conf) = Returns (s, rerr) /\
    let c1 := match err with Some _ => GoInt.incr c | None => 0 end in
    outcome (v1.probeStep w c) = Returns c1 /\
    outcome (v1.tick w conf c) =
      Returns (if c1 >=? v1.DownTimes conf
               then match rerr with None => 0 | Some _ => c1 end
               else c1) /\
    (In (Enter FresetServer) (trace (v1.tick w conf c)) <-> v1.DownTimes conf <= c1).
Proof.
  assert (Hreq : exists t err, v1.request204 w = (Enter FrequestProbe :: t, Returns err) /\
                               ~ In (Enter FresetServer) t).
  { unfold v1.request204. run. destruct (v1.http_Get w v1.Generate204URL) as [resp|e]; run.
    - destruct (http.Body resp); run;
        destruct (http.StatusCode resp =? http.StatusNoContent); run;
        eexists; eexists; (split; [reflexivity|]); cbn [In];
        intros H; repeat destruct H as [H|H]; try discriminate; exact H.
    - eexists; eexists; split; [reflexivity|]. intros []. }
  destruct Hreq as (t & err & Hreq & Ht).
  destruct (v1_resetServer_returns w conf) as (s & rerr & Hr).
  pose proof (v1_resetServer_enters w conf FresetServer) as He.
  exists err, s, rerr. rewrite Hreq. split; [reflexivity|]. split; [exact Hr|].
  intros c1. unfold v1.tick, v1.probeStep. rewrite Hreq.
  assert (Hps : bind (Enter FrequestProbe :: t, Returns err)
                  (fun err => match err with
                              | Some _ => ret (GoInt.incr c)
                              | None => ret 0
                              end)
                = (Enter FrequestProbe :: t, Returns c1)).
  { subst c1. destruct err; run; now rewrite app_nil_r. }
  rewrite Hps. split; [reflexivity|]. run. unfold v1.remediate.
  destruct (v1.resetServer w conf) as [tr o].
  cbn [outcome snd] in Hr. subst o. cbn [trace fst] in He.
  destruct (Z.geb_spec c1 (v1.DownTimes conf)) as [Hge|Hlt]; run.
  - destruct rerr; run; (split; [reflexivity|]); cbn [In];
      rewrite !in_app_iff; cbn [In]; rewrite ?in_app_iff; cbn [In];
      split; try (intros _; exact Hge); intros _; right; right; right; left; tauto.
  - split; [reflexivity|]. rewrite app_nil_r. cbn [In].
    split; [intros [H|H]; [discriminate|contradiction]|lia].
Qed.

(** * The claims about one tick *)

(** C1.  On every tick, [resetServer] is entered if and only if the
    counter, as the probe step of that tick leaves it, is greater than or
    equal to the configured [DownTimes]; the probe step always returns and
    does not change [DownTimes].  The same holds of the loop of [main.go]. *)
Theorem remediation_iff_counter_reaches_down_times
  (verbose : bool) (w : World) (st : State)
  (w1 : v1.World) (conf1 : v1.Config) (c : Z) :
  (exists st1,
     outcome (probeStep verbose w st) = Returns st1 /\
     DownTimes (st_conf st1) = DownTimes (st_conf st) /\
     (In (Enter FresetServer) (trace (tick verbose w st)) <->
      counter st1 >= DownTimes (st_conf st))) /\
  (exists c1,
     outcome (v1.probeStep w1 c) = Returns c1 /\
     (In (Enter FresetServer) (trace (v1.tick w1 conf1 c)) <->
      c1 >= v1.DownTimes conf1)).
Proof.
  split.
  - destruct (tick_spec verbose w st)
      as (conf' & err & s & rerr & _ & Hconf & _ & Hps & _ & Hin).
    eexists. split; [exact Hps|]. cbn [st_conf counter].
    assert (Hd : DownTimes conf' = DownTimes (st_conf st))
      by (destruct Hconf as [->|[cl ->]]; reflexivity).
    split; [exact Hd|]. rewrite Hin, <- Hd.
    destruct (strings.HasPrefix (ProbeURL (st_conf st)) "ping ");
      split; [intros [H|[_ H]]; [discriminate|lia] | intros H; right; split; [reflexivity|lia]
             |intros [H|[_ H]]; [discriminate|lia] | intros H; right; split; [reflexivity|lia]].
  - destruct (v1_tick_spec w1 conf1 c) as (err & s & rerr & _ & _ & Hps & _ & Hin).
    eexists. split; [exact Hps|]. rewrite Hin. lia.
Qed.

(** C2.  On every tick and whatever the counter was before, a probe
    that succeeds (answers a nil error) sets the counter to 0: the probe
    step leaves 0, and so does the whole tick. *)
Theorem success_resets_counter
  (verbose : bool) (w : World) (st : State) (conf' : ProbeConfig) :
  outcome (probe verbose w (st_conf st)) = Returns (conf', None) ->
  (exists st1, outcome (probeStep verbose w st) = Returns st1 /\ counter st1 = 0) /\
  (exists st2, outcome (tick verbose w st) = Returns st2 /\ counter st2 = 0).
Proof.
  intros Hok.
  destruct (tick_spec verbose w st)
    as (conf'' & err & s & rerr & Hp & _ & _ & Hps & Ht & _).
  rewrite Hok in Hp. injection Hp as <- <-. cbn zeta in Hps, Ht.
  split; eexists; (split; [eassumption|]); cbn [counter]; [reflexivity|].
  destruct (0 >=? DownTimes conf'); [destruct rerr|]; reflexivity.
Qed.

(** After seven failures, one answer 204 clears the counter. *)
Lemma success_resets_counter_witness :
  outcome (probe false world_up (st_conf (sample_state "http://router/health" 9 7)))
    = Returns (set_httpClient (sample_conf "http://router/health" 9)
                 (Some {| http.Timeout := 5 * time.Second |}), None) /\
  (exists st1, outcome (probeStep false world_up (sample_state "http://router/health" 9 7))
                 = Returns st1 /\ counter st1 = 0) /\
  (exists st2, outcome (tick false world_up (sample_state "http://router/health" 9 7))
                 = Returns st2 /\ counter st2 = 0).
Proof.
  split; [reflexivity|].
  exact (success_resets_counter false world_up
           (sample_state "http://router/health" 9 7) _ eq_refl).
Defined.

(** C10.  On every tick the probe is chosen by the prefix of the probe
    URL: [pingProbe] is entered if and only if the URL starts with "ping ",
    and [requestProbe] is entered if and only if it does not. *)
Theorem probe_chosen_by_ping_prefix (verbose : bool) (w : World) (st : State) :
  (In (Enter FpingProbe) (trace (tick verbose w st)) <->
   exists rest, ProbeURL (st_conf st) = ("ping " ++ rest)%string) /\
  (In (Enter FrequestProbe) (trace (tick verbose w st)) <->
   ~ exists rest, ProbeURL (st_conf st) = ("ping " ++ rest)%string).
Proof.
  destruct (tick_spec verbose w st) as (conf' & err & s & rerr & _ & _ & _ & _ & _ & Hin).
  rewrite !Hin, <- HasPrefix_spec.
  destruct (strings.HasPrefix (ProbeURL (st_conf st)) "ping "); split; split.
  all: try (intros _; left; reflexivity).
  all: try (intros [H|[H _]]; discriminate).
  all: try reflexivity; try discriminate; try congruence.
Qed.

(** * The loop *)

Lemma tick_returns (verbose : bool) (w : World) (st : State) :
  exists st', outcome (tick verbose w st) = Returns st'.
Proof.
  destruct (tick_spec verbose w st) as (? & ? & ? & ? & _ & _ & _ & _ & Ht & _).
  eexists; exact Ht.
Qed.

(** Below [MaxInt] a tick moves the counter to 0 or one up. *)
Lemma tick_counter_bounds (verbose : bool) (w : World) (st st' : State) :
  0 <= counter st < GoInt.MaxInt ->
  outcome (tick verbose w st) = Returns st' ->
  0 <= counter st' <= counter st + 1.
Proof.
  intros Hc Ht.
  destruct (tick_spec verbose w st) as (conf' & err & s & rerr & _ & _ & _ & _ & Ht' & _).
  rewrite Ht' in Ht. injection Ht as <-. cbn [counter].
  assert (Hi : GoInt.incr (counter st) = counter st + 1).
  { apply incr_no_overflow. unfold GoInt.MinInt, GoInt.MaxInt in *. cbn in *. lia. }
  rewrite Hi. destruct err, rerr; repeat break_match; lia.
Qed.

Lemma loop_returns (verbose : bool) (evs : list Select) : forall st,
  exists status st', outcome (loop verbose evs st) = Returns (status, st').
Proof.
  induction evs as [|[|w] evs IH]; intros st; cbn [loop].
  - eexists; eexists; reflexivity.
  - eexists; eexists; reflexivity.
  - destruct (tick_returns verbose w st) as [st' Ht].
    rewrite outcome_bind, Ht. apply IH.
Qed.

(** After [n] ticks from a counter [c >= 0] the counter is between 0
    and [c + n], as long as that is within [int]; the loop is then still
    waiting for the next tick. *)
Lemma loop_ticks_counter (verbose : bool) (ws : list World) : forall st status st',
  0 <= counter st ->
  counter st + Z.of_nat (List.length ws) <= GoInt.MaxInt ->
  outcome (loop verbose (map tickerC ws) st) = Returns (status, st') ->
  status = Waiting /\ 0 <= counter st' <= counter st + Z.of_nat (List.length ws).
Proof.
  induction ws as [|w ws IH]; intros st status st' H0 Hmax;
    cbn [map loop List.length] in *.
  - cbn. intros [= <- <-]. split; [reflexivity|lia].
  - rewrite outcome_bind. destruct (tick_returns verbose w st) as [st1 Ht]. rewrite Ht.
    intros Hl. rewrite Nat2Z.inj_succ in *.
    pose proof (tick_counter_bounds verbose w st st1 ltac:(lia) Ht) as Hb.
    apply IH in Hl; [|lia|lia]. destruct Hl as [-> Hl]. split; [reflexivity|lia].
Qed.

(** C3.  In a loop that has so far run fewer than [MaxInt] = 2^63 - 1
    ticks from its start (counter 0), on every further tick a failed probe
    increases the counter by exactly 1, and the counter at the end of the
    tick is lower than before only when it is 0 because the probe succeeded
    or because [resetServer] was entered and answered a nil error. *)
Theorem counter_up_by_one_down_only_by_reset
  (verbose : bool) (conf : ProbeConfig) (ws : list World) (st : State) (w : World) :
  Z.of_nat (List.length ws) < GoInt.MaxInt ->
  outcome (loop verbose (map tickerC ws) {| st_conf := conf; counter := 0 |})
    = Returns (Waiting, st) ->
  exists conf' err st1 st2,
    outcome (probe verbose w (st_conf st)) = Returns (conf', err) /\
    outcome (probeStep verbose w st) = Returns st1 /\
    outcome (tick verbose w st) = Returns st2 /\
    (err <> None -> counter st1 = counter st + 1) /\
    (counter st2 < counter st ->
     counter st2 = 0 /\
     (err = None \/
      (In (Enter FresetServer) (trace (tick verbose w st)) /\
       exists s, outcome (resetServer w conf') = Returns (s, None)))).
Proof.
  intros Hlen Hloop.
  apply loop_ticks_counter in Hloop as [_ Hc]; cbn [counter] in *; [|lia|lia].
  destruct (tick_spec verbose w st)
    as (conf' & err & s & rerr & Hp & _ & Hr & Hps & Ht & Hin).
  cbn zeta in *.
  assert (Hi : GoInt.incr (counter st) = counter st + 1).
  { apply incr_no_overflow. unfold GoInt.MinInt, GoInt.MaxInt in *. cbn in *. lia. }
  exists conf', err. eexists; eexists.
  split; [exact Hp|]. split; [exact Hps|]. split; [exact Ht|]. cbn [counter].
  split.
  - destruct err; [intros _; exact Hi|congruence].
  - destruct err as [e|]; [rewrite Hi in *|].
    + destruct (Z.geb_spec (counter st + 1) (DownTimes conf')) as [Hge|Hlt]; [|lia].
      destruct rerr as [re|]; [lia|]. intros _. split; [reflexivity|]. right.
      split; [|exists s; exact Hr]. apply Hin. right. split; [reflexivity|lia].
    + intros Hlt. split; [|left; reflexivity].
      destruct (0 >=? DownTimes conf'); [destruct rerr|]; reflexivity.
Qed.

(** Threshold 3, two failed ticks so far: the third failure brings the
    counter to 3, and the reset, which succeeds, brings it to 0. *)
Lemma counter_up_by_one_down_only_by_reset_witness :
  exists conf' err st1 st2,
    outcome (probe false world_down_reset_ok (st_conf (sample_failing 3 2)))
      = Returns (conf', err) /\
    outcome (probeStep false world_down_reset_ok (sample_failing 3 2)) = Returns st1 /\
    outcome (tick false world_down_reset_ok (sample_failing 3 2)) = Returns st2 /\
    (err <> None -> counter st1 = counter (sample_failing 3 2) + 1) /\
    (counter st2 < counter (sample_failing 3 2) ->
     counter st2 = 0 /\
     (err = None \/
      (In (Enter FresetServer) (trace (tick false world_down_reset_ok (sample_failing 3 2))) /\
       exists s, outcome (resetServer world_down_reset_ok conf') = Returns (s, None)))).
Proof.
  apply (counter_up_by_one_down_only_by_reset false
           (sample_conf "http://router/health" 3) [world_down; world_down]).
  - vm_compute. reflexivity.
  - reflexivity.
Defined.

(** C4.  In a loop that has so far run fewer than [MaxInt] - 1 ticks:
    when on a tick [resetServer] is entered and answers an error, the
    counter at the end of the tick is the counter the probe step left, still
    greater than or equal to [DownTimes]; and on the next tick, whatever the
    world is then, if the probe fails again [resetServer] is entered
    again. *)
Theorem failed_remediation_is_retried_next_tick
  (verbose : bool) (conf : ProbeConfig) (ws : list World) (st st1 : State)
  (w : World) (s : string) (e : error) :
  Z.of_nat (List.length ws) + 1 < GoInt.MaxInt ->
  outcome (loop verbose (map tickerC ws) {| st_conf := conf; counter := 0 |})
    = Returns (Waiting, st) ->
  outcome (probeStep verbose w st) = Returns st1 ->
  In (Enter FresetServer) (trace (tick verbose w st)) ->
  outcome (resetServer w (st_conf st1)) = Returns (s, Some e) ->
  exists st2,
    outcome (tick verbose w st) = Returns st2 /\
    counter st2 = counter st1 /\
    counter st2 >= DownTimes (st_conf st2) /\
    forall w' conf'' e',
      outcome (probe verbose w' (st_conf st2)) = Returns (conf'', Some e') ->
      In (Enter FresetServer) (trace (tick verbose w' st2)).
Proof.
  intros Hlen Hloop Hps Hin Hr.
  apply loop_ticks_counter in Hloop as [_ Hc]; cbn [counter] in *; [|lia|lia].
  destruct (tick_spec verbose w st)
    as (conf' & err & s' & rerr & Hp & _ & Hr' & Hps' & Ht & Hin').
  cbn zeta in *. rewrite Hps' in Hps. injection Hps as <-. cbn [st_conf counter] in *.
  rewrite Hr' in Hr. injection Hr as -> ->.
  apply Hin' in Hin.
  assert (Hge : DownTimes conf' <=
                match err with Some _ => GoInt.incr (counter st) | None => 0 end).
  { destruct Hin as [Hin|[_ Hin]]; [|exact Hin].
    destruct (strings.HasPrefix _ _); discriminate. }
  destruct (Z.geb_spec (match err with Some _ => GoInt.incr (counter st) | None => 0 end)
                       (DownTimes conf')) as [_|Hlt]; [|lia].
  eexists. split; [exact Ht|]. cbn [st_conf counter].
  split; [reflexivity|]. split; [lia|].
  intros w' conf'' e' Hp2.
  set (st2 := {| st_conf := conf'; counter := _ |}).
  destruct (tick_spec verbose w' st2)
    as (conf2 & err2 & s2 & rerr2 & Hp2' & Hconf2 & _ & _ & _ & Hin2).
  cbn zeta in Hin2. subst st2. cbn [st_conf counter] in *.
  rewrite Hp2 in Hp2'. injection Hp2' as <- <-.
  apply Hin2. right. split; [reflexivity|].
  assert (Hd : DownTimes conf'' = DownTimes conf')
    by (destruct Hconf2 as [->|[cl ->]]; reflexivity).
  rewrite Hd.
  assert (Hb : 0 <= match err with Some _ => GoInt.incr (counter st) | None => 0 end
               <= counter st + 1).
  { destruct err; [|lia]. rewrite incr_no_overflow; [lia|].
    unfold GoInt.MinInt, GoInt.MaxInt in *. cbn in *. lia. }
  rewrite incr_no_overflow; [lia|].
  unfold GoInt.MinInt, GoInt.MaxInt in *. cbn in *. lia.
Qed.

(** Threshold 3: the third failed probe trips, the reset fails and the
    counter stays at 3; whatever fails on the fourth tick trips again. *)
Lemma failed_remediation_is_retried_next_tick_witness :
  exists st2,
    outcome (tick false world_down (sample_failing 3 2)) = Returns st2 /\
    counter st2 = counter (sample_failing 3 3) /\
    counter st2 >= DownTimes (st_conf st2) /\
    forall w' conf'' e',
      outcome (probe false w' (st_conf st2)) = Returns (conf'', Some e') ->
      In (Enter FresetServer) (trace (tick false w' st2)).
Proof.
  apply (failed_remediation_is_retried_next_tick false
           (sample_conf "http://router/health" 3) [world_down; world_down]
           (sample_failing 3 2) (sample_failing 3 3) world_down
           "done" (libError "exit status 1")).
  - vm_compute. reflexivity.
  - reflexivity.
  - reflexivity.
  - cbn. auto 20.
  - reflexivity.
Defined.

Lemma loop_stop_ignores_rest (verbose : bool) (evs post : list Select) : forall st,
  loop verbose (evs ++ stopCh :: post) st = loop verbose (evs ++ [stopCh]) st.
Proof.
  induction evs as [|[|w] evs IH]; intros st; cbn [app loop]; try reflexivity.
  destruct (tick verbose w st) as [t [st'|msg]]; cbn [bind]; [|reflexivity].
  now rewrite IH.
Qed.

Lemma loop_stop_trace (verbose : bool) (evs : list Select) : forall st,
  trace (loop verbose (evs ++ [stopCh]) st) = trace (loop verbose evs st).
Proof.
  induction evs as [|[|w] evs IH]; intros st; cbn [app loop]; try reflexivity.
  rewrite !trace_bind. destruct (outcome (tick verbose w st)); [|reflexivity].
  now rewrite IH.
Qed.

Lemma loop_stop_exits (verbose : bool) (evs : list Select) : forall st,
  exists st',
    outcome (loop verbose (evs ++ [stopCh]) st) = Returns (Exited, st') /\
    (outcome (loop verbose evs st) = Returns (Exited, st') \/
     outcome (loop verbose evs st) = Returns (Waiting, st')).
Proof.
  induction evs as [|[|w] evs IH]; intros st; cbn [app loop].
  - exists st. split; [reflexivity|]. right. reflexivity.
  - exists st. split; [reflexivity|]. left. reflexivity.
  - rewrite !outcome_bind. destruct (tick_returns verbose w st) as [st1 ->].
    apply IH.
Qed.

(** C9.  Once a select of the loop receives from the stop channel the
    loop is left at once: whatever would be received afterwards changes
    nothing, a loop that receives [stopCh] first does nothing at all, and the
    events of a run up to and including the stop are those of the selects
    before it, so that no probe and no reset happens at or after the stop.
    [loopCheck] then only stops its ticker. *)
Theorem no_tick_after_stop
  (verbose : bool) (evs post : list Select) (st : State) (conf : ProbeConfig) :
  loop verbose (stopCh :: post) st = ([], Returns (Exited, st)) /\
  loop verbose (evs ++ stopCh :: post) st = loop verbose (evs ++ [stopCh]) st /\
  trace (loop verbose (evs ++ stopCh :: post) st) = trace (loop verbose evs st) /\
  (exists st', outcome (loop verbose (evs ++ stopCh :: post) st) = Returns (Exited, st')) /\
  loopCheck verbose (evs ++ stopCh :: post) conf = loopCheck verbose (evs ++ [stopCh]) conf /\
  trace (loopCheck verbose (evs ++ stopCh :: post) conf) =
  (trace (loopCheck verbose evs conf) ++
   match outcome (loopCheck verbose evs conf) with
   | Returns (Waiting, _) => [EvTickerStop]
   | _ => []
   end)%list.
Proof.
  pose proof (loop_stop_ignores_rest verbose evs post) as Hsame.
  pose proof (loop_stop_trace verbose evs) as Htr.
  pose proof (loop_stop_exits verbose evs) as Hex.
  split; [reflexivity|]. split; [apply Hsame|].
  split; [rewrite Hsame; apply Htr|].
  split; [rewrite Hsame; destruct (Hex st) as (st' & H & _); now exists st'|].
  split; [unfold loopCheck; now rewrite Hsame|].
  unfold loopCheck. rewrite Hsame.
  destruct (interval conf <=? 0); [reflexivity|].
  run.
  set (st0 := {| st_conf := conf; counter := 0 |}).
  specialize (Htr st0). destruct (Hex st0) as (st' & H1 & H2).
  destruct (loop verbose (evs ++ [stopCh]) st0) as [t1 o1].
  destruct (loop verbose evs st0) as [t2 o2].
  cbn [trace outcome fst snd] in *. subst t1 o1.
  destruct H2 as [-> | ->]; run; cbn [app]; rewrite ?app_nil_r; reflexivity.
Qed.

(** * Start-up and what can end the program *)

Lemma prepare_ok (env : Startup) (p p' : ProbeConfig) :
  prepare env p = inr p' -> 0 < DownTimes p'.
Proof.
  unfold prepare.
  destruct (time_ParseDuration env _) as [d|e]; [|discriminate].
  destruct (time_ParseDuration env _) as [d'|e]; [|discriminate].
  match goal with |- context [DownTimes ?q <=? 0] =>
    destruct (Z.leb_spec (DownTimes q) 0) as [Hle|Hgt]; [discriminate|] end.
  intros [= <-]. exact Hgt.
Qed.

Lemma prepareAll_ok (env : Startup) (ps : list ProbeConfig) : forall ps',
  prepareAll env ps = inr ps' ->
  List.length ps' = List.length ps /\ Forall (fun p => 0 < DownTimes p) ps'.
Proof.
  induction ps as [|p ps IH]; intros ps'; cbn [prepareAll].
  - intros [= <-]. split; [reflexivity|constructor].
  - destruct (prepare env p) as [x|p1] eqn:Hp; [discriminate|].
    destruct (prepareAll env ps) as [x|ps1]; [discriminate|].
    intros [= <-]. destruct (IH ps1 eq_refl) as [Hl Hf].
    split; [cbn; now rewrite Hl|]. constructor; [|exact Hf].
    eapply prepare_ok, Hp.
Qed.

(** A start-up that does not end the process leaves at least one probe,
    and every probe with a positive number of down times. *)
Lemma startup_ok (env : Startup) (ps : list ProbeConfig) :
  startup env = inr ps -> ps <> [] /\ Forall (fun p => 0 < DownTimes p) ps.
Proof.
  unfold startup.
  destruct (String.eqb (flag_config env) ""); [discriminate|].
  destruct (os_Open env _) as [f|e]; [|discriminate].
  destruct (ioutil_ReadAll env f) as [data|e]; [|discriminate].
  destruct (yaml_Unmarshal env data) as [conf|e]; [|discriminate].
  destruct (Z.leb_spec (Z.of_nat (List.length (Probes conf))) 0) as [Hle|Hgt];
    [discriminate|].
  intros H. apply prepareAll_ok in H as [Hl Hf]. split; [|exact Hf].
  intros ->. cbn in Hl. lia.
Qed.

Lemma launch_In (verbose : bool) (sched : nat -> list Select) (ps : list ProbeConfig) :
  forall i m, In m (launch verbose sched i ps) ->
  exists j p, In p ps /\ m = loopCheck verbose (sched j) p.
Proof.
  induction ps as [|p ps IH]; intros i m; cbn [launch In]; [tauto|].
  intros [<-|H].
  - exists i, p. split; [now left|reflexivity].
  - destruct (IH _ _ H) as (j & q & Hq & ->). exists j, q. split; [now right|reflexivity].
Qed.

(** [loopCheck] panics only in [NewTicker], before anything else. *)
Lemma loopCheck_panics (verbose : bool) (evs : list Select) (conf : ProbeConfig) (msg : string) :
  outcome (loopCheck verbose evs conf) = Panics msg ->
  interval conf <= 0 /\
  loopCheck verbose evs conf = ([EvNewTicker (interval conf)], Panics msg).
Proof.
  unfold loopCheck.
  destruct (Z.leb_spec (interval conf) 0) as [Hle|Hgt].
  - run. intros [= <-]. split; [exact Hle|reflexivity].
  - rewrite outcome_bind. cbn [emit outcome snd]. rewrite outcome_bind.
    cbn [log_Println emit outcome snd]. rewrite outcome_bind.
    destruct (loop_returns verbose evs {| st_conf := conf; counter := 0 |})
      as (status & st' & ->).
    destruct status; run; discriminate.
Qed.

(** C8.  Once the loops run, a probe never ends the program: the probe
    of a tick ([pingProbe] or [requestProbe], as the loop calls them) always
    returns, with a nil error or an error value, for every world and every
    configuration, and so does the whole tick.  What ends the program is a
    configuration error: [main] ends the process only during start-up,
    before any loop is launched, and a loop it launched panics only in
    [time.NewTicker], on a configured interval that is not positive, before
    its first tick. *)
Theorem probe_failures_are_never_fatal
  (verbose : bool) (w : World) (conf : ProbeConfig) (st : State)
  (evs : list Select) (env : Startup) (sched : nat -> list Select) :
  (exists conf' err, outcome (probe verbose w conf) = Returns (conf', err)) /\
  (exists st', outcome (tick verbose w st) = Returns st') /\
  (forall msg,
     outcome (loopCheck verbose evs conf) = Panics msg ->
     interval conf <= 0 /\
     loopCheck verbose evs conf = ([EvNewTicker (interval conf)], Panics msg)) /\
  (forall x, main env sched = inl x -> startup env = inl x) /\
  (forall ms,
     main env sched = inr ms ->
     exists ps,
       startup env = inr ps /\ ps <> [] /\
       Forall (fun p => 0 < DownTimes p) ps /\
       forall m msg,
         In m ms -> outcome m = Panics msg ->
         exists p, In p ps /\ interval p <= 0 /\ trace m = [EvNewTicker (interval p)]).
Proof.
  split.
  { destruct (probe_returns verbose w conf) as (conf' & err & H & _).
    now exists conf', err. }
  split; [apply tick_returns|].
  split; [apply loopCheck_panics|].
  unfold main. destruct (startup env) as [x|ps] eqn:Hs.
  - split; [intros ? [= <-]; reflexivity|discriminate].
  - split; [discriminate|]. intros ms [= <-]. exists ps.
    destruct (startup_ok env ps Hs) as [Hne Hf].
    split; [reflexivity|]. split; [exact Hne|]. split; [exact Hf|].
    intros m msg Hin Hpanic.
    apply launch_In in Hin as (j & p & Hp & ->).
    apply loopCheck_panics in Hpanic as [Hle ->].
    exists p. split; [exact Hp|]. split; [exact Hle|reflexivity].
Qed.

(** A probe with an interval of 0 panics in the ticker, before any
    probe; the world, in which every probe would fail, is never asked. *)
Lemma probe_failures_are_never_fatal_witness :
  interval (set_interval (sample_conf "ping 10.0.0.1" 3) 0) <= 0 /\
  loopCheck false [tickerC world_down] (set_interval (sample_conf "ping 10.0.0.1" 3) 0)
  = ([EvNewTicker 0], Panics "non-positive interval for NewTicker").
Proof.
  destruct (probe_failures_are_never_fatal false world_down
              (set_interval (sample_conf "ping 10.0.0.1" 3) 0)
              (sample_state "ping 10.0.0.1" 3 0)
              [tickerC world_down]
              (sample_startup [sample_conf "ping 10.0.0.1" 3] 0)
              (fun _ => [tickerC world_down])) as (_ & _ & H & _).
  exact (H "non-positive interval for NewTicker" eq_refl).
Defined.

(** * Scenarios *)

(** Threshold 3: two failures do not trip, the third does. *)
Example scenario_third_failure_trips :
  resets (trace (loop false [tickerC world_down; tickerC world_down]
                   (sample_state "http://router/health" 3 0))) = 0%nat /\
  resets (trace (loop false [tickerC world_down; tickerC world_down;
                             tickerC world_down_reset_ok]
                   (sample_state "http://router/health" 3 0))) = 1%nat.
Proof. split; reflexivity. Qed.

(** After a reset that succeeded the count starts again from 0: the
    fourth failure leaves the counter at 1. *)
Example scenario_fresh_count_after_reset :
  outcome (loop false [tickerC world_down; tickerC world_down;
                       tickerC world_down_reset_ok; tickerC world_down]
             (sample_state "http://router/health" 3 0))
  = Returns (Waiting, sample_failing 3 1).
Proof. reflexivity. Qed.

(** Threshold 1: every failed probe is followed by a reset. *)
Example scenario_threshold_one :
  resets (trace (loop false [tickerC world_down_reset_ok; tickerC world_up;
                             tickerC world_down_reset_ok; tickerC world_down_reset_ok]
                   (sample_state "ping 10.0.0.1" 1 0))) = 3%nat.
Proof. reflexivity. Qed.

(** A reset that fails is tried again on every failing tick. *)
Example scenario_retry_every_tick :
  resets (trace (loop false [tickerC world_down; tickerC world_down; tickerC world_down;
                             tickerC world_down; tickerC world_down]
                   (sample_state "ping 10.0.0.1" 3 0))) = 3%nat /\
  outcome (loop false [tickerC world_down; tickerC world_down; tickerC world_down;
                       tickerC world_down; tickerC world_down]
             (sample_state "ping 10.0.0.1" 3 0))
  = Returns (Waiting, sample_state "ping 10.0.0.1" 3 5).
Proof. split; reflexivity. Qed.

(** Nothing is probed once the stop channel was received. *)
Example scenario_stop :
  loopCheck false [tickerC world_down; stopCh; tickerC world_down]
    (sample_conf "ping 10.0.0.1" 3)
  = loopCheck false [tickerC world_down; stopCh] (sample_conf "ping 10.0.0.1" 3).
Proof. reflexivity. Qed.

(** The counter at the largest [int]: the increment wraps around. *)
Example scenario_counter_wraps :
  outcome (probeStep false world_down (sample_state "ping 10.0.0.1" 3 GoInt.MaxInt))
  = Returns (sample_state "ping 10.0.0.1" 3 GoInt.MinInt).
Proof. reflexivity. Qed.

(** * Further properties of the program *)

(** ** [pingProbe] on a malformed probe URL *)

Lemma indexFrom_char (c : ascii) (s : string) : forall i,
  0 <= i ->
  (strings.indexFrom i s (String c "") <? 0) = negb (strings.contains_char c s).
Proof.
  induction s as [|d s IH]; intros i Hi.
  - reflexivity.
  - cbn [strings.indexFrom strings.contains_char]. rewrite prefix_char.
    destruct (Ascii.eqb c d); cbn [orb negb].
    + apply Z.ltb_ge. exact Hi.
    + apply IH. lia.
Qed.

Lemma SplitN_space_length (s : string) :
  Z.of_nat (List.length (strings.SplitN s " " 2)) < 2 <->
  strings.contains_char " " s = false.
Proof.
  change (strings.SplitN s " " 2) with (strings.genSplit 1 " " s).
  unfold strings.genSplit, strings.Index.
  rewrite (indexFrom_char " " s 0) by lia.
  destruct (strings.contains_char " " s); cbn; split; intros; try lia; congruence.
Qed.

(** X1.  [pingProbe] panics, with "malformed ping probe url", exactly
    when the probe URL contains no space; it then has asked for no pinger
    and sent nothing.  On every URL with a space it returns. *)
Theorem pingProbe_panics_iff_no_space (verbose : bool) (w : World) (conf : ProbeConfig) :
  (strings.contains_char " " (ProbeURL conf) = false ->
   pingProbe verbose w conf = ([Enter FpingProbe], Panics "malformed ping probe url")) /\
  (strings.contains_char " " (ProbeURL conf) = true ->
   exists err, outcome (pingProbe verbose w conf) = Returns err).
Proof.
  pose proof (SplitN_space_length (ProbeURL conf)) as Hlen.
  pose proof (pingProbe_panics_iff verbose w conf) as Hp.
  split; intros Hs.
  - apply Hlen in Hs. unfold pingProbe.
    destruct (Z.ltb_spec (Z.of_nat (List.length (strings.SplitN (ProbeURL conf) " " 2))) 2);
      [reflexivity|lia].
  - destruct (outcome (pingProbe verbose w conf)) as [err|msg] eqn:Ho.
    + now exists err.
    + assert (Hlt : Z.of_nat (List.length (strings.SplitN (ProbeURL conf) " " 2)) < 2)
        by (apply Hp; now exists msg).
      apply Hlen in Hlt. congruence.
Qed.

Lemma pingProbe_panics_iff_no_space_witness :
  pingProbe false world_up (sample_conf "10.0.0.1" 3)
    = ([Enter FpingProbe], Panics "malformed ping probe url") /\
  exists err, outcome (pingProbe false world_up (sample_conf "host 10.0.0.1" 3))
              = Returns err.
Proof.
  split.
  - apply (pingProbe_panics_iff_no_space false world_up (sample_conf "10.0.0.1" 3)).
    reflexivity.
  - apply (pingProbe_panics_iff_no_space false world_up (sample_conf "host 10.0.0.1" 3)).
    reflexivity.
Defined.

(** ** [resetServer]: authentication, errors and output *)

(** X2.  Whenever [resetServer] dials, it does so as the configured user,
    with a host key callback that accepts every key, and with these
    authentication methods in this order: the password, if one is
    configured, then the key of the key file, if one is configured.  With
    neither configured the list is empty. *)
Theorem resetServer_dial_config
  (w : World) (conf : ProbeConfig) (network addr : string) (cfg : ssh.ClientConfig) :
  In (EvDial network addr cfg) (trace (resetServer w conf)) ->
  ssh.User cfg = Username (Server conf) /\
  (forall hostname remote key, ssh.HostKeyCallback cfg hostname remote key = None) /\
  exists keys,
    ssh.Auth cfg =
      ((if nonempty (Password (Server conf))
        then [ssh.Password (Password (Server conf))] else []) ++ keys)%list /\
    if nonempty (KeyFile (Server conf))
    then exists buffer key,
           ioutil_ReadFile w (KeyFile (Server conf)) = Ok buffer /\
           ssh_ParsePrivateKey w buffer = Ok key /\
           keys = [ssh.PublicKeys key]
    else keys = [].
Proof.
  unfold resetServer, PublicKeyFile.
  destruct (nonempty (Password (Server conf)));
    destruct (nonempty (KeyFile (Server conf))); run.
  all: repeat (break_world; run).
  all: intros H; in_cases H.
  all: injection H as _ _ <-; cbn [ssh.User ssh.HostKeyCallback ssh.Auth].
  all: split; [reflexivity|]; split; [reflexivity|].
  all: try (exists []; split; reflexivity).
  all: eexists; split; [reflexivity|]; eexists; eexists; repeat split; eassumption.
Qed.

Lemma resetServer_dial_config_witness :
  ssh.User sample_ssh_config = Username (Server (sample_conf "ping 10.0.0.1" 3)) /\
  (forall hostname remote key,
     ssh.HostKeyCallback sample_ssh_config hostname remote key = None) /\
  exists keys,
    ssh.Auth sample_ssh_config = ([ssh.Password "secret"] ++ keys)%list /\ keys = [].
Proof.
  apply (resetServer_dial_config world_up (sample_conf "ping 10.0.0.1" 3) "tcp" "router:22"
           sample_ssh_config).
  cbn. right. left. reflexivity.
Defined.

(** X3.  With a key file configured that cannot be read, or whose
    content is no private key, [resetServer] returns that error and an empty
    output after reading the file, without dialling: a configured password
    is not tried instead. *)
Theorem resetServer_unusable_key_file (w : World) (conf : ProbeConfig) (e : error) :
  nonempty (KeyFile (Server conf)) = true ->
  (ioutil_ReadFile w (KeyFile (Server conf)) = Err e \/
   exists buffer, ioutil_ReadFile w (KeyFile (Server conf)) = Ok buffer /\
                  ssh_ParsePrivateKey w buffer = Err e) ->
  resetServer w conf =
    ([Enter FresetServer; EvReadFile (KeyFile (Server conf))], Returns ("", Some e)).
Proof.
  intros Hk Hbad. unfold resetServer, PublicKeyFile. rewrite Hk.
  destruct Hbad as [Hr|(buffer & Hr & Hp)]; rewrite Hr; [|rewrite Hp];
    destruct (nonempty (Password (Server conf))); reflexivity.
Qed.

Lemma resetServer_unusable_key_file_witness :
  resetServer world_up (sample_conf_key "ping 10.0.0.1" "/root/.ssh/id_rsa")
  = ([Enter FresetServer; EvReadFile "/root/.ssh/id_rsa"],
     Returns ("", Some (libError "no such file"))).
Proof.
  apply (resetServer_unusable_key_file world_up
           (sample_conf_key "ping 10.0.0.1" "/root/.ssh/id_rsa")
           (libError "no such file")).
  - reflexivity.
  - left. reflexivity.
Defined.



(** ** [requestProbe]: one request, one client *)

(** The trace of [requestProbe], by what the world answers. *)
Lemma requestProbe_trace (w : World) (conf : ProbeConfig) :
  exists rest,
    trace (requestProbe w conf) =
      Enter FrequestProbe :: EvNewRequest "GET" (ProbeURL conf) :: rest /\
    match http_NewRequest w "GET" (ProbeURL conf) with
    | Err _ => rest = []
    | Ok req =>
        match Client_Do w (clientOf conf) req with
        | Err _ => rest = [EvHTTPDo (clientOf conf) req]
        | Ok resp =>
            rest = EvHTTPDo (clientOf conf) req ::
                   match http.Body resp with
                   | Some _ => [EvBodyDrain]
                   | None => []
                   end
        end
    end.
Proof.
  unfold requestProbe. change http.MethodGet with "GET".
  fold (clientOf conf). run.
  destruct (http_NewRequest w "GET" (ProbeURL conf)) as [req|e]; run.
  2:{ eexists; split; reflexivity. }
  destruct (Client_Do w (clientOf conf) req) as [resp|e]; run.
  2:{ eexists; split; reflexivity. }
  destruct (http.Body resp); run;
    destruct (http.StatusCode resp =? http.StatusOK);
    destruct (http.StatusCode resp =? http.StatusNoContent); run;
    eexists; split; reflexivity.
Qed.

(** X5.  [requestProbe] builds one GET request for the probe URL and
    sends it at most once, with the client of the configuration (a new one
    with the configured timeout when none is stored); when a response comes
    back with a body it drains the body whatever the status is; and it never
    builds or sends a second request. *)
Theorem requestProbe_one_request (w : World) (conf : ProbeConfig) :
  exists rest,
    trace (requestProbe w conf) =
      Enter FrequestProbe :: EvNewRequest "GET" (ProbeURL conf) :: rest /\
    (forall m u, ~ In (EvNewRequest m u) rest) /\
    (forall c req,
       In (EvHTTPDo c req) rest ->
       c = match httpClient conf with
           | Some c0 => c0
           | None => {| http.Timeout := timeout conf |}
           end /\
       http_NewRequest w "GET" (ProbeURL conf) = Ok req /\
       exists tl, rest = EvHTTPDo c req :: tl /\
                  forall c' req', ~ In (EvHTTPDo c' req') tl) /\
    (In EvBodyDrain rest <->
     exists req resp body,
       http_NewRequest w "GET" (ProbeURL conf) = Ok req /\
       Client_Do w (match httpClient conf with
                    | Some c0 => c0
                    | None => {| http.Timeout := timeout conf |}
                    end) req = Ok resp /\
       http.Body resp = Some body).
Proof.
  fold (clientOf conf).
  destruct (requestProbe_trace w conf) as (rest & Htr & Hrest).
  exists rest. split; [exact Htr|].
  destruct (http_NewRequest w "GET" (ProbeURL conf)) as [req|e].
  2:{ subst rest. cbn [In]. repeat split; try tauto.
      intros (? & ? & ? & ? & _); discriminate. }
  destruct (Client_Do w (clientOf conf) req) as [resp|e] eqn:Hdo.
  2:{ subst rest. split; [intros m u H; in_cases H|].
      split.
      - intros c r H. in_cases H. injection H as <- <-.
        split; [reflexivity|]. split; [reflexivity|].
        exists []. split; [reflexivity|]. intros ? ? [].
      - split; [intros H; in_cases H|].
        intros (r & resp & body & [= <-] & Hd & _). congruence. }
  destruct (http.Body resp) as [body|] eqn:Hb; subst rest.
  - split; [intros m u H; in_cases H|].
    split.
    + intros c r H. in_cases H. injection H as <- <-.
      split; [reflexivity|]. split; [reflexivity|].
      eexists. split; [reflexivity|]. intros ? ? H; in_cases H.
    + split; [|intros _; cbn; tauto].
      intros _. exists req, resp, body. repeat split; assumption.
  - split; [intros m u H; in_cases H|].
    split.
    + intros c r H. in_cases H. injection H as <- <-.
      split; [reflexivity|]. split; [reflexivity|].
      eexists. split; [reflexivity|]. intros ? ? [].
    + split; [intros H; in_cases H|].
      intros (r & resp' & body & [= <-] & Hd & Hb'). congruence.
Qed.

(** [requestProbe] stores the client it used and changes nothing else. *)
Lemma requestProbe_stores_client (w : World) (conf conf' : ProbeConfig) (err : option error) :
  outcome (requestProbe w conf) = Returns (conf', err) ->
  conf' = conf \/ conf' = set_httpClient conf (Some (clientOf conf)).
Proof.
  unfold requestProbe. fold (clientOf conf). run.
  destruct (http_NewRequest w http.MethodGet (ProbeURL conf)) as [req|e]; run.
  2:{ intros [= <- _]. now left. }
  destruct (Client_Do w _ req) as [resp|e]; run.
  2:{ intros [= <- _]. now right. }
  destruct (http.Body resp); run;
    destruct (http.StatusCode resp =? http.StatusOK);
    destruct (http.StatusCode resp =? http.StatusNoContent); run;
    intros [= <- _]; now right.
Qed.

Lemma probe_stores_client (verbose : bool) (w : World) (conf conf' : ProbeConfig)
  (err : option error) :
  outcome (probe verbose w conf) = Returns (conf', err) ->
  conf' = conf \/ conf' = set_httpClient conf (Some (clientOf conf)).
Proof.
  unfold probe. destruct (strings.HasPrefix (ProbeURL conf) "ping ") eqn:Hp.
  - rewrite outcome_bind. destruct (pingProbe_returns verbose w conf Hp) as [e ->].
    cbn. intros [= <- _]. now left.
  - apply requestProbe_stores_client.
Qed.

(** The trace of a tick, block by block. *)
Lemma tick_trace (verbose : bool) (w : World) (st : State) :
  exists conf' err,
    outcome (probe verbose w (st_conf st)) = Returns (conf', err) /\
    trace (tick verbose w st) =
      (trace (probe verbose w (st_conf st)) ++
       trace (mark verbose conf' err (counter st)) ++
       trace (remediate w conf'
                (match err with Some _ => GoInt.incr (counter st) | None => 0 end)))%list.
Proof.
  destruct (tick_spec verbose w st)
    as (conf' & err & s & rerr & Hp & _ & _ & Hps & _ & _).
  cbn zeta in Hps. exists conf', err. split; [exact Hp|].
  destruct (mark_spec verbose conf' err (counter st)) as [Hm _].
  assert (Hr : exists c2, outcome (remediate w conf'
                 (match err with Some _ => GoInt.incr (counter st) | None => 0 end))
               = Returns c2).
  { match goal with |- context [remediate w conf' ?c] =>
      destruct (Z.lt_ge_cases c (DownTimes conf')) as [Hlt|Hge];
      [rewrite remediate_below by exact Hlt; eexists; reflexivity
      |destruct (remediate_tripped w conf' c Hge) as (? & ? & _ & -> & _);
       eexists; reflexivity] end. }
  destruct Hr as [c2 Hr].
  unfold tick. rewrite trace_bind, Hps. cbn [st_conf counter].
  rewrite trace_bind, Hr. cbn [ret trace fst]. rewrite app_nil_r.
  unfold probeStep. rewrite trace_bind, Hp, trace_bind, Hm.
  cbn [ret trace fst]. now rewrite app_nil_r, app_assoc.
Qed.

(** What [remediate] writes: the log lines around [resetServer]. *)
Lemma remediate_trace (w : World) (conf : ProbeConfig) (c : Z) :
  exists s rerr,
    outcome (resetServer w conf) = Returns (s, rerr) /\
    trace (remediate w conf c) =
      if c >=? DownTimes conf
      then (EvLog (LogResetting (Name conf)) :: trace (resetServer w conf) ++
            EvLog (LogOutput s) ::
            match rerr with
            | Some e => [EvLog (LogResetError (Name conf) e)]
            | None => []
            end)%list
      else [].
Proof.
  destruct (resetServer_returns w conf) as (s & rerr & Hr).
  exists s, rerr. split; [exact Hr|]. unfold remediate.
  destruct (c >=? DownTimes conf); [|reflexivity].
  destruct (resetServer w conf) as [t o]. cbn [outcome snd] in Hr. subst o.
  destruct rerr; run; reflexivity.
Qed.

Lemma resetServer_no_http (w : World) (conf : ProbeConfig) (c : http.Client) (req : http.Request) :
  ~ In (EvHTTPDo c req) (trace (resetServer w conf)).
Proof.
  unfold resetServer, PublicKeyFile.
  destruct (nonempty (Password (Server conf)));
    destruct (nonempty (KeyFile (Server conf))); run.
  all: repeat (break_world; run).
  all: intros H; in_cases H.
Qed.

(** Every request of a tick is sent with the client of the configuration. *)
Lemma tick_http_client (verbose : bool) (w : World) (st : State)
  (c : http.Client) (req : http.Request) :
  In (EvHTTPDo c req) (trace (tick verbose w st)) -> c = clientOf (st_conf st).
Proof.
  destruct (tick_trace verbose w st) as (conf' & err & Hp & ->).
  rewrite !in_app_iff. intros [H|[H|H]].
  - unfold probe in H. destruct (strings.HasPrefix (ProbeURL (st_conf st)) "ping ") eqn:Hpre.
    + apply HasPrefix_spec in Hpre as [host Hurl].
      rewrite trace_bind in H.
      pose proof (pingProbe_ping verbose w (st_conf st) host Hurl) as Hping.
      destruct (ping_NewPinger w host).
      * destruct Hping as (p & _ & _ & _ & _ & Hping). rewrite Hping in H. in_cases H.
      * rewrite Hping in H. in_cases H.
    + destruct (requestProbe_trace w (st_conf st)) as (rest & Htr & Hrest).
      rewrite Htr in H.
      destruct (http_NewRequest w "GET" (ProbeURL (st_conf st))) as [r|e];
        [destruct (Client_Do w (clientOf (st_conf st)) r) as [resp|e];
         [destruct (http.Body resp)|]|];
        subst rest; in_cases H; now injection H.
  - exfalso. unfold mark in H. destruct err; [|destruct verbose]; in_cases H.
  - exfalso. destruct (remediate_trace w conf'
      (match err with Some _ => GoInt.incr (counter st) | None => 0 end))
      as (s & rerr & _ & Htr).
    rewrite Htr in H. destruct (_ >=? _); [|in_cases H].
    destruct H as [H|H]; [discriminate|].
    apply in_app_or in H as [H|H]; [now apply resetServer_no_http in H|].
    destruct rerr; in_cases H.
Qed.

Lemma tick_settings (verbose : bool) (w : World) (st st' : State) :
  outcome (tick verbose w st) = Returns st' ->
  st_conf st' = st_conf st \/
  st_conf st' = set_httpClient (st_conf st) (Some (clientOf (st_conf st))).
Proof.
  destruct (tick_spec verbose w st) as (conf' & err & s & rerr & Hp & _ & _ & _ & Ht & _).
  rewrite Ht. intros [= <-]. cbn [st_conf].
  eapply probe_stores_client, Hp.
Qed.

(** A run of the loop never changes the probe URL. *)
Lemma loop_probe_url (verbose : bool) (evs : list Select) : forall st status st',
  outcome (loop verbose evs st) = Returns (status, st') ->
  ProbeURL (st_conf st') = ProbeURL (st_conf st).
Proof.
  induction evs as [|[|w] evs IH]; intros st status st'; cbn [loop].
  - cbn. now intros [= _ <-].
  - cbn. now intros [= _ <-].
  - rewrite outcome_bind. destruct (tick_returns verbose w st) as [st1 Ht]. rewrite Ht.
    intros Hl. apply IH in Hl. rewrite Hl.
    apply tick_settings in Ht. destruct Ht as [->| ->]; reflexivity.
Qed.

(** X6.  Through any run of the loop the configuration keeps its name,
    probe URL, durations, number of down times and server; only the HTTP
    client may change, and only from none to a client with the configured
    timeout. *)
Theorem loop_keeps_configuration
  (verbose : bool) (evs : list Select) (st : State) (status : LoopStatus) (st' : State) :
  outcome (loop verbose evs st) = Returns (status, st') ->
  Name (st_conf st') = Name (st_conf st) /\
  ProbeURL (st_conf st') = ProbeURL (st_conf st) /\
  Timeout (st_conf st') = Timeout (st_conf st) /\
  Interval (st_conf st') = Interval (st_conf st) /\
  DownTimes (st_conf st') = DownTimes (st_conf st) /\
  Server (st_conf st') = Server (st_conf st) /\
  timeout (st_conf st') = timeout (st_conf st) /\
  interval (st_conf st') = interval (st_conf st) /\
  (httpClient (st_conf st') = httpClient (st_conf st) \/
   (httpClient (st_conf st) = None /\
    httpClient (st_conf st') = Some {| http.Timeout := timeout (st_conf st) |})).
Proof.
  revert st. induction evs as [|[|w] evs IH]; intros st; cbn [loop].
  - cbn. intros [= _ <-]. repeat split; auto.
  - cbn. intros [= _ <-]. repeat split; auto.
  - rewrite outcome_bind. destruct (tick_returns verbose w st) as [st1 Ht]. rewrite Ht.
    intros Hl. apply IH in Hl.
    destruct Hl as (H1 & H2 & H3 & H4 & H5 & H6 & H7 & H8 & H9).
    apply tick_settings in Ht. unfold clientOf in Ht.
    destruct Ht as [E|E]; rewrite E in *; cbn in *.
    + repeat split; assumption.
    + repeat split; try assumption.
      destruct (httpClient (st_conf st)) as [c0|] eqn:Hc.
      * left. destruct H9 as [H9|[H9 _]]; [exact H9|discriminate].
      * right. split; [reflexivity|].
        destruct H9 as [H9|[H9 _]]; [exact H9|discriminate].
Qed.

Lemma loop_keeps_configuration_witness :
  DownTimes (st_conf (sample_failing 3 2)) = DownTimes (sample_conf "http://router/health" 3) /\
  httpClient (st_conf (sample_failing 3 2)) = Some {| http.Timeout := 5 * time.Second |}.
Proof.
  destruct (loop_keeps_configuration false [tickerC world_down; tickerC world_down]
              (sample_state "http://router/health" 3 0) Waiting (sample_failing 3 2)
              eq_refl) as (_ & _ & _ & _ & Hd & _ & _ & _ & [Hc|[_ Hc]]).
  - discriminate Hc.
  - split; [exact Hd|exact Hc].
Defined.

(** X7.  In any run of the loop every HTTP request is sent with one and
    the same client: the client the configuration holds at the start or,
    when it holds none, a client with the configured timeout. *)
Theorem loop_one_http_client
  (verbose : bool) (evs : list Select) (st : State) (c : http.Client) (req : http.Request) :
  In (EvHTTPDo c req) (trace (loop verbose evs st)) ->
  c = match httpClient (st_conf st) with
      | Some c0 => c0
      | None => {| http.Timeout := timeout (st_conf st) |}
      end.
Proof.
  fold (clientOf (st_conf st)).
  revert st. induction evs as [|[|w] evs IH]; intros st; cbn [loop].
  - intros [].
  - intros [].
  - rewrite trace_bind. destruct (tick_returns verbose w st) as [st1 Ht]. rewrite Ht.
    rewrite in_app_iff. intros [H|H].
    + eapply tick_http_client, H.
    + apply IH in H. rewrite H.
      apply tick_settings in Ht. destruct Ht as [->| ->]; [reflexivity|].
      unfold clientOf. cbn. reflexivity.
Qed.

Lemma loop_one_http_client_witness :
  {| http.Timeout := 5 * time.Second |} =
  match httpClient (st_conf (sample_state "http://router/health" 3 0)) with
  | Some c0 => c0
  | None => {| http.Timeout := timeout (st_conf (sample_state "http://router/health" 3 0)) |}
  end.
Proof.
  apply (loop_one_http_client false [tickerC world_down; tickerC world_up]
           (sample_state "http://router/health" 3 0)
           {| http.Timeout := 5 * time.Second |}
           {| http.Method := "GET"; http.URL := "http://router/health" |}).
  cbn. auto 20.
Defined.

(** ** When the server is reset *)

(** X8.  On a tick whose probe succeeds, [resetServer] is entered if and
    only if the configured number of down times is not positive: with the
    positive number start-up insists on, a healthy target is never reset,
    and without that check it would be reset on every tick. *)
Theorem healthy_tick_resets_iff_down_times_not_positive
  (verbose : bool) (w : World) (st : State) (conf' : ProbeConfig) :
  outcome (probe verbose w (st_conf st)) = Returns (conf', None) ->
  (In (Enter FresetServer) (trace (tick verbose w st)) <-> DownTimes (st_conf st) <= 0).
Proof.
  intros Hok.
  destruct (tick_spec verbose w st)
    as (conf'' & err & s & rerr & Hp & Hconf & _ & _ & _ & Hin).
  rewrite Hok in Hp. injection Hp as <- <-. cbn zeta in Hin. rewrite Hin.
  assert (Hd : DownTimes conf' = DownTimes (st_conf st))
    by (destruct Hconf as [->|[cl ->]]; reflexivity).
  rewrite Hd. split.
  - intros [H|[_ H]]; [|exact H].
    destruct (strings.HasPrefix _ _); discriminate.
  - intros H. right. split; [reflexivity|exact H].
Qed.

Lemma healthy_tick_resets_iff_down_times_not_positive_witness :
  (In (Enter FresetServer) (trace (tick false world_up (sample_state "ping 10.0.0.1" 0 0)))
   <-> DownTimes (st_conf (sample_state "ping 10.0.0.1" 0 0)) <= 0) /\
  (In (Enter FresetServer) (trace (tick false world_up (sample_state "ping 10.0.0.1" 1 0)))
   <-> DownTimes (st_conf (sample_state "ping 10.0.0.1" 1 0)) <= 0).
Proof.
  split.
  - exact (healthy_tick_resets_iff_down_times_not_positive false world_up
             (sample_state "ping 10.0.0.1" 0 0) _ eq_refl).
  - exact (healthy_tick_resets_iff_down_times_not_positive false world_up
             (sample_state "ping 10.0.0.1" 1 0) _ eq_refl).
Defined.

Lemma loop_no_reset_below (verbose : bool) (ws : list World) : forall st,
  0 <= counter st ->
  counter st + Z.of_nat (List.length ws) < DownTimes (st_conf st) ->
  DownTimes (st_conf st) <= GoInt.MaxInt ->
  ~ In (Enter FresetServer) (trace (loop verbose (map tickerC ws) st)).
Proof.
  induction ws as [|w ws IH]; intros st H0 Hlt Hmax; cbn [map loop List.length] in *.
  - intros [].
  - rewrite Nat2Z.inj_succ in Hlt.
    rewrite trace_bind. destruct (tick_returns verbose w st) as [st1 Ht]. rewrite Ht.
    pose proof (tick_counter_bounds verbose w st st1 ltac:(lia) Ht) as Hb.
    pose proof (tick_settings verbose w st st1 Ht) as Hs.
    assert (Hd : DownTimes (st_conf st1) = DownTimes (st_conf st))
      by (destruct Hs as [->| ->]; reflexivity).
    rewrite in_app_iff. intros [H|H].
    + destruct (tick_spec verbose w st)
        as (conf' & err & s & rerr & _ & Hconf & _ & _ & _ & Hin).
      cbn zeta in Hin. apply Hin in H.
      assert (Hd' : DownTimes conf' = DownTimes (st_conf st))
        by (destruct Hconf as [->|[cl ->]]; reflexivity).
      destruct H as [H|[_ H]]; [destruct (strings.HasPrefix _ _); discriminate|].
      rewrite Hd' in H.
      destruct err; [rewrite incr_no_overflow in H|]; try lia.
      unfold GoInt.MinInt, GoInt.MaxInt in *. cbn in *. lia.
    + revert H. apply IH; rewrite ?Hd; lia.
Qed.

(** X9.  Whatever the probes answer, [resetServer] is not entered during
    the first [DownTimes - 1] ticks of a loop. *)
Theorem no_reset_before_down_times_ticks
  (verbose : bool) (ws : list World) (conf : ProbeConfig) :
  Z.of_nat (List.length ws) < DownTimes conf ->
  DownTimes conf <= GoInt.MaxInt ->
  ~ In (Enter FresetServer)
       (trace (loop verbose (map tickerC ws) {| st_conf := conf; counter := 0 |})).
Proof.
  intros Hlt Hmax. apply loop_no_reset_below; cbn [st_conf counter]; lia.
Qed.

Lemma no_reset_before_down_times_ticks_witness :
  ~ In (Enter FresetServer)
       (trace (loop false (map tickerC [world_down; world_down])
                 {| st_conf := sample_conf "ping 10.0.0.1" 3; counter := 0 |})).
Proof.
  apply (no_reset_before_down_times_ticks false [world_down; world_down]
           (sample_conf "ping 10.0.0.1" 3)).
  - cbn. lia.
  - vm_compute. discriminate.
Defined.

Lemma loop_failures_count (verbose : bool) (ws : list World) : forall st,
  Forall (always_fails verbose) ws ->
  0 <= counter st ->
  counter st + Z.of_nat (List.length ws) < DownTimes (st_conf st) ->
  DownTimes (st_conf st) <= GoInt.MaxInt ->
  exists st',
    outcome (loop verbose (map tickerC ws) st) = Returns (Waiting, st') /\
    counter st' = counter st + Z.of_nat (List.length ws) /\
    DownTimes (st_conf st') = DownTimes (st_conf st).
Proof.
  induction ws as [|w ws IH]; intros st Hf H0 Hlt Hmax; cbn [map loop List.length] in *.
  - exists st. split; [reflexivity|]. split; [lia|reflexivity].
  - rewrite Nat2Z.inj_succ in Hlt. inversion Hf as [|? ? Hw Hws]; subst.
    destruct (tick_spec verbose w st)
      as (conf' & err & s & rerr & Hp & Hconf & _ & _ & Ht & _).
    destruct (Hw (st_conf st)) as (conf'' & e & Hp'). rewrite Hp in Hp'.
    injection Hp' as -> ->. cbn zeta in Ht.
    assert (Hd : DownTimes conf'' = DownTimes (st_conf st))
      by (destruct Hconf as [->|[cl ->]]; reflexivity).
    rewrite incr_no_overflow in Ht
      by (unfold GoInt.MinInt, GoInt.MaxInt in *; cbn in *; lia).
    destruct (Z.geb_spec (counter st + 1) (DownTimes conf'')) as [Hge|_]; [lia|].
    rewrite outcome_bind, Ht.
    destruct (IH {| st_conf := conf''; counter := counter st + 1 |} Hws)
      as (st' & Hl & Hc & Hd'); cbn [st_conf counter]; try lia.
    exists st'. split; [exact Hl|]. cbn [st_conf counter] in *. split; lia.
Qed.

(** X10.  When every probe fails, the counter after [n] ticks of a new
    loop is [n] as long as [n] is below [DownTimes], none of those ticks
    enters [resetServer], and the tick of failure number [DownTimes] does. *)
Theorem reset_on_failure_number_down_times
  (verbose : bool) (ws : list World) (w : World) (conf : ProbeConfig) :
  Forall (always_fails verbose) ws ->
  always_fails verbose w ->
  Z.of_nat (List.length ws) + 1 = DownTimes conf ->
  DownTimes conf <= GoInt.MaxInt ->
  exists st,
    outcome (loop verbose (map tickerC ws) {| st_conf := conf; counter := 0 |})
      = Returns (Waiting, st) /\
    counter st = Z.of_nat (List.length ws) /\
    ~ In (Enter FresetServer)
         (trace (loop verbose (map tickerC ws) {| st_conf := conf; counter := 0 |})) /\
    In (Enter FresetServer) (trace (tick verbose w st)).
Proof.
  intros Hws Hw Hlen Hmax.
  destruct (loop_failures_count verbose ws {| st_conf := conf; counter := 0 |} Hws)
    as (st & Hl & Hc & Hd); cbn [st_conf counter] in *; try lia.
  exists st. split; [exact Hl|]. split; [lia|].
  split; [apply loop_no_reset_below; cbn [st_conf counter]; lia|].
  destruct (tick_spec verbose w st)
    as (conf' & err & s & rerr & Hp & Hconf & _ & _ & _ & Hin).
  destruct (Hw (st_conf st)) as (conf'' & e & Hp'). rewrite Hp in Hp'.
  injection Hp' as -> ->. cbn zeta in Hin. apply Hin. right. split; [reflexivity|].
  assert (Hd' : DownTimes conf'' = DownTimes (st_conf st))
    by (destruct Hconf as [->|[cl ->]]; reflexivity).
  rewrite incr_no_overflow
    by (unfold GoInt.MinInt, GoInt.MaxInt in *; cbn in *; lia).
  lia.
Qed.

(** In [world_down] every probe fails: a ping gets two replies of three,
    a GET the status 503. *)
Lemma world_down_always_fails (verbose : bool) : always_fails verbose world_down.
Proof.
  intros conf. unfold probe.
  destruct (strings.HasPrefix (ProbeURL conf) "ping ") eqn:Hp.
  - apply HasPrefix_spec in Hp as [host Hurl].
    pose proof (pingProbe_ping verbose world_down conf host Hurl) as H.
    cbn [world_down sample_world ping_NewPinger Pinger_Run snd] in H.
    destruct H as (p & _ & _ & _ & _ & ->).
    exists conf, ErrorPingProbeUnfinished. reflexivity.
  - exists (set_httpClient conf (Some (clientOf conf))), ErrorStatusCodeIsNot204.
    unfold requestProbe, clientOf. destruct (httpClient conf); reflexivity.
Qed.

Lemma reset_on_failure_number_down_times_witness :
  exists st,
    outcome (loop false (map tickerC [world_down; world_down])
               {| st_conf := sample_conf "ping 10.0.0.1" 3; counter := 0 |})
      = Returns (Waiting, st) /\
    counter st = Z.of_nat (List.length [world_down; world_down]) /\
    ~ In (Enter FresetServer)
         (trace (loop false (map tickerC [world_down; world_down])
                   {| st_conf := sample_conf "ping 10.0.0.1" 3; counter := 0 |})) /\
    In (Enter FresetServer) (trace (tick false world_down st)).
Proof.
  apply (reset_on_failure_number_down_times false [world_down; world_down] world_down
           (sample_conf "ping 10.0.0.1" 3)).
  - repeat constructor; apply world_down_always_fails.
  - apply world_down_always_fails.
  - reflexivity.
  - vm_compute. discriminate.
Defined.

(** ** What a tick writes to the log *)

Lemma logs_app (t1 t2 : list Event) : logs (t1 ++ t2) = (logs t1 ++ logs t2)%list.
Proof.
  induction t1 as [|e t1 IH]; [reflexivity|].
  destruct e; cbn [logs app]; rewrite IH; reflexivity.
Qed.

Lemma resetServer_logs (w : World) (conf : ProbeConfig) :
  logs (trace (resetServer w conf)) = [].
Proof.
  unfold resetServer, PublicKeyFile.
  destruct (nonempty (Password (Server conf)));
    destruct (nonempty (KeyFile (Server conf))); run.
  all: repeat (break_world; run).
  all: reflexivity.
Qed.

Lemma probe_logs (verbose : bool) (w : World) (conf : ProbeConfig) :
  logs (trace (probe verbose w conf)) = [].
Proof.
  unfold probe. destruct (strings.HasPrefix (ProbeURL conf) "ping ") eqn:Hpre.
  - apply HasPrefix_spec in Hpre as [host Hurl].
    rewrite trace_bind.
    pose proof (pingProbe_ping verbose w conf host Hurl) as Hping.
    destruct (ping_NewPinger w host).
    + destruct Hping as (p & _ & _ & _ & _ & ->). reflexivity.
    + rewrite Hping. reflexivity.
  - destruct (requestProbe_trace w conf) as (rest & -> & Hrest).
    destruct (http_NewRequest w "GET" (ProbeURL conf)) as [r|e];
      [destruct (Client_Do w (clientOf conf) r) as [resp|e];
       [destruct (http.Body resp)|]|];
      subst rest; reflexivity.
Qed.

(** X11.  The log of one tick, line by line.  A failed probe is always
    logged, with its error and the counter after it; a successful one only
    in verbose mode.  When the counter has reached [DownTimes], the tick
    logs that it resets the server, then the output of the reset (an empty
    line when the reset failed before running anything), then the error of
    the reset if there is one.  Nothing else is logged. *)
Theorem tick_log (verbose : bool) (w : World) (st : State) :
  exists conf' err s rerr,
    outcome (probe verbose w (st_conf st)) = Returns (conf', err) /\
    outcome (resetServer w conf') = Returns (s, rerr) /\
    logs (trace (tick verbose w st)) =
      ((match err with
        | Some e => [LogProbeError (Name (st_conf st)) e (GoInt.incr (counter st))]
        | None => if verbose then [LogProbeSuccess (Name (st_conf st))] else []
        end) ++
       (if (match err with Some _ => GoInt.incr (counter st) | None => 0 end)
             >=? DownTimes (st_conf st)
        then LogResetting (Name (st_conf st)) :: LogOutput s ::
             match rerr with
             | Some e => [LogResetError (Name (st_conf st)) e]
             | None => []
             end
        else []))%list.
Proof.
  destruct (tick_trace verbose w st) as (conf' & err & Hp & Htr).
  destruct (remediate_trace w conf'
              (match err with Some _ => GoInt.incr (counter st) | None => 0 end))
    as (s & rerr & Hr & Hrem).
  exists conf', err, s, rerr. split; [exact Hp|]. split; [exact Hr|].
  assert (Hn : Name conf' = Name (st_conf st) /\ DownTimes conf' = DownTimes (st_conf st)).
  { apply probe_stores_client in Hp. destruct Hp as [->| ->]; split; reflexivity. }
  destruct Hn as [Hn Hd].
  rewrite Hn, Hd in Hrem.
  rewrite Htr, !logs_app, probe_logs, Hrem. cbn [app]. f_equal.
  - unfold mark. rewrite Hn. destruct err; [|destruct verbose]; reflexivity.
  - destruct (_ >=? DownTimes (st_conf st)); [|reflexivity].
    cbn [logs]. rewrite logs_app, resetServer_logs. cbn [app logs].
    destruct rerr; reflexivity.
Qed.

(** ** Start-up: what is checked and what is defaulted *)

Lemma prepare_inv (env : Startup) (p p' : ProbeConfig) :
  prepare env p = inr p' ->
  Name p' = (if String.eqb (Name p) "" then Hostname (Server p) else Name p) /\
  ProbeURL p' = (if String.eqb (ProbeURL p) "" then DefaultGenerate204ProbeURL
                 else ProbeURL p) /\
  time_ParseDuration env (Timeout p) = Ok (timeout p') /\
  time_ParseDuration env (Interval p) = Ok (interval p') /\
  DownTimes p' = DownTimes p /\ 0 < DownTimes p /\
  Server p' = Server p /\ Timeout p' = Timeout p /\ Interval p' = Interval p /\
  httpClient p' = httpClient p.
Proof.
  unfold prepare.
  assert (HT : forall q : ProbeConfig,
             Timeout (if String.eqb (ProbeURL q) ""
                      then set_ProbeURL q DefaultGenerate204ProbeURL else q) = Timeout q)
    by (intros q; destruct (String.eqb (ProbeURL q) ""); reflexivity).
  assert (HN : Timeout (if String.eqb (Name p) "" then set_Name p (Hostname (Server p)) else p)
               = Timeout p)
    by (destruct (String.eqb (Name p) ""); reflexivity).
  rewrite HT, HN.
  destruct (time_ParseDuration env (Timeout p)) as [d|e]; [|discriminate].
  cbn [Interval set_timeout].
  assert (HI : Interval (if String.eqb
                              (ProbeURL (if String.eqb (Name p) ""
                                         then set_Name p (Hostname (Server p)) else p)) ""
                         then set_ProbeURL (if String.eqb (Name p) ""
                                            then set_Name p (Hostname (Server p)) else p)
                                DefaultGenerate204ProbeURL
                         else (if String.eqb (Name p) ""
                               then set_Name p (Hostname (Server p)) else p))
               = Interval p)
    by (destruct (String.eqb (Name p) ""); cbn;
        destruct (String.eqb (ProbeURL p) ""); reflexivity).
  rewrite HI.
  destruct (time_ParseDuration env (Interval p)) as [d'|e]; [|discriminate].
  cbn [DownTimes set_interval].
  match goal with |- context [DownTimes ?q <=? 0] =>
    destruct (Z.leb_spec (DownTimes q) 0) as [Hle|Hgt]; [discriminate|] end.
  intros [= <-]. revert Hgt.
  destruct (String.eqb (Name p) ""); cbn;
    destruct (String.eqb (ProbeURL p) ""); cbn; intros Hgt;
    repeat split; try reflexivity; exact Hgt.
Qed.

Lemma prepare_succeeds (env : Startup) (p : ProbeConfig) (d d' : time.Duration) :
  time_ParseDuration env (Timeout p) = Ok d ->
  time_ParseDuration env (Interval p) = Ok d' ->
  0 < DownTimes p ->
  exists p', prepare env p = inr p'.
Proof.
  intros Ht Hi Hd.
  destruct (prepare env p) as [x|p'] eqn:Hp; [|now exists p'].
  exfalso. revert Hp. unfold prepare.
  destruct (String.eqb (Name p) ""); cbn;
    destruct (String.eqb (ProbeURL p) ""); cbn; rewrite Ht; cbn; rewrite Hi; cbn;
    destruct (Z.leb_spec (DownTimes p) 0); try lia; discriminate.
Qed.

Lemma startup_inv (env : Startup) (ps : list ProbeConfig) :
  startup env = inr ps ->
  flag_config env <> "" /\
  exists f data conf,
    os_Open env (flag_config env) = Ok f /\
    ioutil_ReadAll env f = Ok data /\
    yaml_Unmarshal env data = Ok conf /\
    Probes conf <> [] /\
    prepareAll env (Probes conf) = inr ps.
Proof.
  unfold startup.
  destruct (String.eqb_spec (flag_config env) "") as [|Hne]; [discriminate|].
  destruct (os_Open env _) as [f|e] eqn:Ho; [|discriminate].
  destruct (ioutil_ReadAll env f) as [data|e] eqn:Hr; [|discriminate].
  destruct (yaml_Unmarshal env data) as [conf|e] eqn:Hy; [|discriminate].
  destruct (Z.leb_spec (Z.of_nat (List.length (Probes conf))) 0) as [Hle|Hgt];
    [discriminate|].
  intros H. split; [exact Hne|]. exists f, data, conf.
  split; [reflexivity|]. split; [exact Hr|]. split; [exact Hy|].
  split; [|exact H].
  intros E. rewrite E in Hgt. cbn in Hgt. lia.
Qed.

Lemma prepareAll_Forall2 (env : Startup) (ps : list ProbeConfig) : forall ps',
  prepareAll env ps = inr ps' ->
  Forall2 (fun p p' => prepare env p = inr p') ps ps'.
Proof.
  induction ps as [|p ps IH]; intros ps'; cbn [prepareAll].
  - intros [= <-]. constructor.
  - destruct (prepare env p) as [x|p1] eqn:Hp; [discriminate|].
    destruct (prepareAll env ps) as [x|ps1]; [discriminate|].
    intros [= <-]. constructor; [exact Hp|]. now apply IH.
Qed.

Lemma prepareAll_succeeds (env : Startup) (ps : list ProbeConfig) :
  Forall (fun p => exists p', prepare env p = inr p') ps ->
  exists ps', prepareAll env ps = inr ps'.
Proof.
  induction 1 as [|p ps [p' Hp] _ [ps' IH]]; cbn [prepareAll].
  - eexists; reflexivity.
  - rewrite Hp, IH. eexists; reflexivity.
Qed.

(** X12.  Start-up lets the loops begin if and only if a configuration
    path is given, the file can be opened, read and parsed, it holds at
    least one probe, and of every probe the timeout and the interval parse
    as durations and the number of down times is positive.  Nothing else is
    checked: neither the sign of the durations nor any field of the
    server. *)
Theorem startup_succeeds_iff (env : Startup) :
  (exists ps, startup env = inr ps) <->
  flag_config env <> "" /\
  exists f data conf,
    os_Open env (flag_config env) = Ok f /\
    ioutil_ReadAll env f = Ok data /\
    yaml_Unmarshal env data = Ok conf /\
    Probes conf <> [] /\
    Forall (fun p =>
              (exists d, time_ParseDuration env (Timeout p) = Ok d) /\
              (exists d, time_ParseDuration env (Interval p) = Ok d) /\
              0 < DownTimes p) (Probes conf).
Proof.
  split.
  - intros [ps Hs]. apply startup_inv in Hs as (Hne & f & data & conf & Ho & Hr & Hy & Hp & Hall).
    split; [exact Hne|]. exists f, data, conf. repeat split; try assumption.
    apply prepareAll_Forall2 in Hall. clear - Hall.
    induction Hall as [|p p' l l' Hpp _ IH]; constructor; [|exact IH].
    apply prepare_inv in Hpp as (_ & _ & Ht & Hi & _ & Hd & _).
    split; [eexists; exact Ht|]. split; [eexists; exact Hi|exact Hd].
  - intros (Hne & f & data & conf & Ho & Hr & Hy & Hp & Hall).
    unfold startup.
    destruct (String.eqb_spec (flag_config env) ""); [contradiction|].
    rewrite Ho, Hr, Hy.
    destruct (Z.leb_spec (Z.of_nat (List.length (Probes conf))) 0) as [Hle|_].
    { destruct (Probes conf); [contradiction|cbn in Hle; lia]. }
    apply prepareAll_succeeds.
    eapply Forall_impl; [|exact Hall]. cbn.
    intros p ([d Ht] & [d' Hi] & Hd). eapply prepare_succeeds; eassumption.
Qed.

Lemma startup_succeeds_iff_witness :
  exists ps, startup (sample_startup [sample_conf "ping 10.0.0.1" 3] (5 * time.Second))
             = inr ps.
Proof.
  apply (startup_succeeds_iff
           (sample_startup [sample_conf "ping 10.0.0.1" 3] (5 * time.Second))).
  split; [discriminate|].
  exists 3%nat, "probes: ...", {| Probes := [sample_conf "ping 10.0.0.1" 3] |}.
  repeat split; try reflexivity; [discriminate|].
  repeat constructor; cbn; try (eexists; reflexivity).
Defined.

(** X13.  After a start-up that lets the loops begin there is one
    prepared probe per configured probe, in the same order, and each is the
    configured one except for this: an empty name becomes the host name of
    its server, an empty probe URL becomes the default URL
    "https://www.google.com/generate_204", and [timeout] and [interval] hold
    the parsed durations. *)
Theorem startup_defaults (env : Startup) (ps : list ProbeConfig) :
  startup env = inr ps ->
  exists f data conf,
    os_Open env (flag_config env) = Ok f /\
    ioutil_ReadAll env f = Ok data /\
    yaml_Unmarshal env data = Ok conf /\
    Forall2
      (fun p p' =>
         Name p' = (if String.eqb (Name p) "" then Hostname (Server p) else Name p) /\
         ProbeURL p' = (if String.eqb (ProbeURL p) ""
                        then "https://www.google.com/generate_204" else ProbeURL p) /\
         time_ParseDuration env (Timeout p) = Ok (timeout p') /\
         time_ParseDuration env (Interval p) = Ok (interval p') /\
         DownTimes p' = DownTimes p /\
         Server p' = Server p /\
         Timeout p' = Timeout p /\ Interval p' = Interval p /\
         httpClient p' = httpClient p)
      (Probes conf) ps.
Proof.
  intros Hs. apply startup_inv in Hs as (_ & f & data & conf & Ho & Hr & Hy & _ & Hall).
  exists f, data, conf. repeat split; try assumption.
  apply prepareAll_Forall2 in Hall.
  induction Hall as [|p p' l l' Hpp _ IH]; constructor; [|exact IH].
  apply prepare_inv in Hpp as (H1 & H2 & H3 & H4 & H5 & _ & H6 & H7 & H8 & H9).
  repeat split; assumption.
Qed.

Lemma startup_defaults_witness :
  exists f data conf,
    os_Open (sample_startup [sample_conf "" 3] (5 * time.Second)) "config.yml" = Ok f /\
    ioutil_ReadAll (sample_startup [sample_conf "" 3] (5 * time.Second)) f = Ok data /\
    yaml_Unmarshal (sample_startup [sample_conf "" 3] (5 * time.Second)) data = Ok conf /\
    Forall2
      (fun p p' =>
         Name p' = (if String.eqb (Name p) "" then Hostname (Server p) else Name p) /\
         ProbeURL p' = (if String.eqb (ProbeURL p) ""
                        then "https://www.google.com/generate_204" else ProbeURL p) /\
         time_ParseDuration (sample_startup [sample_conf "" 3] (5 * time.Second)) (Timeout p)
           = Ok (timeout p') /\
         time_ParseDuration (sample_startup [sample_conf "" 3] (5 * time.Second)) (Interval p)
           = Ok (interval p') /\
         DownTimes p' = DownTimes p /\
         Server p' = Server p /\
         Timeout p' = Timeout p /\ Interval p' = Interval p /\
         httpClient p' = httpClient p)
      (Probes conf)
      [set_interval (set_timeout (sample_conf "https://www.google.com/generate_204" 3)
                       (5 * time.Second)) (5 * time.Second)].
Proof.
  apply (startup_defaults (sample_startup [sample_conf "" 3] (5 * time.Second))).
  reflexivity.
Defined.

(** X14.  A probe configured without a probe URL is watched over HTTP:
    after start-up every tick of its loop enters [requestProbe], never
    [pingProbe], and builds a GET request for
    "https://www.google.com/generate_204". *)
Theorem empty_probe_url_is_watched_over_http
  (env : Startup) (p p' : ProbeConfig) (verbose : bool) (evs : list Select)
  (w : World) (c : Z) (status : LoopStatus) (st : State) :
  prepare env p = inr p' ->
  ProbeURL p = "" ->
  outcome (loop verbose evs {| st_conf := p'; counter := c |}) = Returns (status, st) ->
  In (Enter FrequestProbe) (trace (tick verbose w st)) /\
  ~ In (Enter FpingProbe) (trace (tick verbose w st)) /\
  In (EvNewRequest "GET" "https://www.google.com/generate_204") (trace (tick verbose w st)).
Proof.
  intros Hp Hurl Hl.
  apply prepare_inv in Hp as (_ & Hu & _). rewrite Hurl in Hu. cbn in Hu.
  apply loop_probe_url in Hl as Hu'. cbn [st_conf] in Hu'.
  rewrite Hu in Hu'.
  destruct (tick_spec verbose w st) as (conf' & err & s & rerr & _ & _ & _ & _ & _ & Hin).
  cbn zeta in Hin. rewrite Hu' in Hin. cbn in Hin.
  split; [apply Hin; left; reflexivity|].
  split; [intros H; apply Hin in H; destruct H as [H|[H _]]; discriminate|].
  destruct (tick_trace verbose w st) as (conf'' & err' & _ & ->).
  apply in_or_app. left. unfold probe. rewrite Hu'.
  replace (strings.HasPrefix DefaultGenerate204ProbeURL "ping ") with false by reflexivity.
  destruct (requestProbe_trace w (st_conf st)) as (rest & -> & _).
  rewrite Hu'. right. left. reflexivity.
Qed.

Lemma empty_probe_url_is_watched_over_http_witness :
  exists st,
    outcome (loop false [tickerC world_down]
               {| st_conf := set_interval
                               (set_timeout
                                  (sample_conf "https://www.google.com/generate_204" 3)
                                  (5 * time.Second)) (5 * time.Second);
                  counter := 0 |}) = Returns (Waiting, st) /\
    In (Enter FrequestProbe) (trace (tick false world_up st)) /\
    ~ In (Enter FpingProbe) (trace (tick false world_up st)) /\
    In (EvNewRequest "GET" "https://www.google.com/generate_204")
       (trace (tick false world_up st)).
Proof.
  eexists. split; [reflexivity|].
  apply (empty_probe_url_is_watched_over_http
           (sample_startup [sample_conf "" 3] (5 * time.Second))
           (sample_conf "" 3) _ false [tickerC world_down] world_up 0 Waiting _
           eq_refl eq_refl eq_refl).
Defined.

Lemma launch_nth (verbose : bool) (sched : nat -> list Select) (ps : list ProbeConfig) :
  forall k i p,
    nth_error ps i = Some p ->
    nth_error (launch verbose sched k ps) i = Some (loopCheck verbose (sched (k + i)%nat) p).
Proof.
  induction ps as [|q ps IH]; intros k i p; destruct i as [|i]; cbn [nth_error launch];
    try discriminate.
  - intros [= ->]. now rewrite Nat.add_0_r.
  - intros H. rewrite (IH (S k) i p H). now rewrite Nat.add_succ_r.
Qed.

Lemma launch_length (verbose : bool) (sched : nat -> list Select) (ps : list ProbeConfig) :
  forall k, List.length (launch verbose sched k ps) = List.length ps.
Proof. induction ps as [|q ps IH]; intros k; cbn; [reflexivity|now rewrite IH]. Qed.

(** X15.  After a start-up that did not end the process, [main] runs as
    many loops as the configuration file holds probes, and the [i]-th loop
    watches the [i]-th prepared probe, with its own selects and with the
    verbosity of the command line. *)
Theorem main_one_loop_per_probe
  (env : Startup) (sched : nat -> list Select) (ms : list (M (LoopStatus * State))) :
  main env sched = inr ms ->
  exists f data conf ps,
    os_Open env (flag_config env) = Ok f /\
    ioutil_ReadAll env f = Ok data /\
    yaml_Unmarshal env data = Ok conf /\
    startup env = inr ps /\
    List.length ms = List.length (Probes conf) /\
    forall i p,
      nth_error ps i = Some p ->
      nth_error ms i = Some (loopCheck (flag_verbose env) (sched i) p).
Proof.
  unfold main. destruct (startup env) as [x|ps] eqn:Hs; [discriminate|].
  intros [= <-].
  pose proof (startup_inv env ps Hs) as (_ & f & data & conf & Ho & Hr & Hy & _ & Hall).
  exists f, data, conf, ps. repeat split; try assumption.
  - rewrite launch_length. apply prepareAll_ok in Hall. tauto.
  - intros i p Hi. now apply (launch_nth _ _ _ 0%nat).
Qed.

Lemma main_one_loop_per_probe_witness :
  exists f data conf ps,
    os_Open (sample_startup [sample_conf "ping 10.0.0.1" 3; sample_conf "" 2]
               (5 * time.Second)) "config.yml" = Ok f /\
    ioutil_ReadAll (sample_startup [sample_conf "ping 10.0.0.1" 3; sample_conf "" 2]
                      (5 * time.Second)) f = Ok data /\
    yaml_Unmarshal (sample_startup [sample_conf "ping 10.0.0.1" 3; sample_conf "" 2]
                      (5 * time.Second)) data = Ok conf /\
    startup (sample_startup [sample_conf "ping 10.0.0.1" 3; sample_conf "" 2]
               (5 * time.Second)) = inr ps /\
    2%nat = List.length (Probes conf) /\
    forall i p,
      nth_error ps i = Some p ->
      nth_error
        (launch false (fun _ => [stopCh]) 0
           [set_interval (set_timeout (sample_conf "ping 10.0.0.1" 3) (5 * time.Second))
              (5 * time.Second);
            set_interval (set_timeout (sample_conf DefaultGenerate204ProbeURL 2)
                            (5 * time.Second)) (5 * time.Second)]) i
      = Some (loopCheck false [stopCh] p).
Proof.
  apply (main_one_loop_per_probe
           (sample_startup [sample_conf "ping 10.0.0.1" 3; sample_conf "" 2]
              (5 * time.Second))
           (fun _ => [stopCh])
           (launch false (fun _ => [stopCh]) 0
              [set_interval (set_timeout (sample_conf "ping 10.0.0.1" 3) (5 * time.Second))
                 (5 * time.Second);
               set_interval (set_timeout (sample_conf DefaultGenerate204ProbeURL 2)
                               (5 * time.Second)) (5 * time.Second)])).
  reflexivity.
Defined.

(** * Further properties of the program of [main.go] *)

(** X16.  [request204] of [main.go] succeeds exactly on the status 204:
    unlike [requestProbe] it counts a 200 as a failure, "response status
    code is not 204"; an error of [http.Get] is returned as it is. *)
Theorem request204_success_iff_204 (w : v1.World) :
  exists err,
    outcome (v1.request204 w) = Returns err /\
    (err = None <->
       exists resp, v1.http_Get w "https://www.google.com/generate_204" = Ok resp /\
                    http.StatusCode resp = 204) /\
    (forall resp,
       v1.http_Get w "https://www.google.com/generate_204" = Ok resp ->
       http.StatusCode resp <> 204 -> err = Some ErrorStatusCodeIsNot204) /\
    (forall e, v1.http_Get w "https://www.google.com/generate_204" = Err e -> err = Some e).
Proof.
  unfold v1.request204. change v1.Generate204URL with "https://www.google.com/generate_204".
  change http.StatusNoContent with 204.
  destruct (v1.http_Get w "https://www.google.com/generate_204") as [resp|e].
  2:{ exists (Some e). repeat split; try discriminate.
      - intros (? & ? & _); discriminate.
      - now intros ? [= ->]. }
  exists (if negb (http.StatusCode resp =? 204) then Some ErrorStatusCodeIsNot204 else None).
  split.
  { destruct (http.Body resp); run; destruct (http.StatusCode resp =? 204); reflexivity. }
  destruct (Z.eqb_spec (http.StatusCode resp) 204) as [H204|H204]; cbn [negb].
  - split; [split; [intros _; now exists resp|reflexivity]|].
    split; [intros ? [= <-] ?; contradiction|discriminate].
  - split; [split; [discriminate|intros (? & [= <-] & ?); contradiction]|].
    split; [reflexivity|discriminate].
Qed.

Lemma request204_success_iff_204_witness :
  exists err,
    outcome (v1.request204 (v1_sample_world 200 None)) = Returns err /\
    err = Some ErrorStatusCodeIsNot204.
Proof.
  destruct (request204_success_iff_204 (v1_sample_world 200 None))
    as (err & Ho & _ & H200 & _).
  exists err. split; [exact Ho|].
  apply (H200 {| http.StatusCode := 200; http.Body := Some "" |});
    [reflexivity|cbn; lia].
Defined.

(** X17.  The counter of [main.go] over one tick, for a positive number
    of down times and a counter within [int]: 0 after a successful probe;
    one more after a failed probe that leaves it below [DownTimes]; and once
    [DownTimes] is reached, 0 if the reset succeeds and one more, to be tried
    again on the next tick, if it fails. *)
Theorem v1_counter_after_tick (w : v1.World) (conf : v1.Config) (c : Z) :
  0 < v1.DownTimes conf ->
  0 <= c < GoInt.MaxInt ->
  exists err s rerr,
    outcome (v1.request204 w) = Returns err /\
    outcome (v1.resetServer w conf) = Returns (s, rerr) /\
    outcome (v1.tick w conf c) =
      Returns (match err with
               | None => 0
               | Some _ =>
                   if c + 1 <? v1.DownTimes conf then c + 1
                   else match rerr with None => 0 | Some _ => c + 1 end
               end).
Proof.
  intros Hd Hc.
  destruct (v1_tick_spec w conf c) as (err & s & rerr & He & Hr & _ & Ht & _).
  exists err, s, rerr. split; [exact He|]. split; [exact Hr|].
  rewrite Ht. destruct err as [e|].
  - rewrite incr_no_overflow
      by (unfold GoInt.MinInt, GoInt.MaxInt in *; cbn in *; lia).
    destruct (Z.geb_spec (c + 1) (v1.DownTimes conf));
      destruct (Z.ltb_spec (c + 1) (v1.DownTimes conf)); try lia; reflexivity.
  - destruct (Z.geb_spec 0 (v1.DownTimes conf)); [lia|reflexivity].
Qed.

Lemma v1_counter_after_tick_witness :
  exists err s rerr,
    outcome (v1.request204 (v1_sample_world 503 (Some (libError "exit status 1"))))
      = Returns err /\
    outcome (v1.resetServer (v1_sample_world 503 (Some (libError "exit status 1")))
               (v1_sample_conf 3)) = Returns (s, rerr) /\
    outcome (v1.tick (v1_sample_world 503 (Some (libError "exit status 1")))
               (v1_sample_conf 3) 2) =
      Returns (match err with
               | None => 0
               | Some _ =>
                   if 2 + 1 <? v1.DownTimes (v1_sample_conf 3) then 2 + 1
                   else match rerr with None => 0 | Some _ => 2 + 1 end
               end).
Proof.
  apply (v1_counter_after_tick (v1_sample_world 503 (Some (libError "exit status 1")))
           (v1_sample_conf 3) 2).
  - reflexivity.
  - split; [lia|reflexivity].
Defined.

(** X18.  [resetServer] of [main.go] always dials, once, as the
    configured user and with the password as its only authentication
    method, also when the password is empty; it accepts every host key. *)
Theorem v1_resetServer_dial_config (w : v1.World) (conf : v1.Config) :
  exists cfg rest,
    trace (v1.resetServer w conf) =
      Enter FresetServer :: EvDial "tcp" (dialAddr (v1.Hostname (v1.Server conf))) cfg :: rest /\
    (forall network addr cfg', ~ In (EvDial network addr cfg') rest) /\
    ssh.User cfg = v1.Username (v1.Server conf) /\
    ssh.Auth cfg = [ssh.Password (v1.Password (v1.Server conf))] /\
    (forall hostname remote key, ssh.HostKeyCallback cfg hostname remote key = None).
Proof.
  unfold v1.resetServer. fold (dialAddr (v1.Hostname (v1.Server conf))). run.
  repeat (break_world; run).
  all: eexists; eexists; (split; [reflexivity|]).
  all: (split; [intros ? ? ? H; in_cases H|]).
  all: repeat split; reflexivity.
Qed.

Lemma v1_loop_returns (ws : list v1.World) (conf : v1.Config) : forall c,
  exists c', outcome (v1.loop ws conf c) = Returns c'.
Proof.
  induction ws as [|w ws IH]; intros c; cbn [v1.loop].
  - eexists; reflexivity.
  - destruct (v1_tick_spec w conf c) as (? & ? & ? & _ & _ & _ & Ht & _).
    rewrite outcome_bind, Ht. apply IH.
Qed.

(** X19.  [loopCheck] of [main.go] panics if and only if the interval is
    not positive, and then in [time.NewTicker], before any probe; with a
    positive interval no probe and no reset, however they fail, ends it. *)
Theorem v1_loopCheck_panics_iff (ws : list v1.World) (conf : v1.Config) :
  ((exists msg, outcome (v1.loopCheck ws conf) = Panics msg) <-> v1.interval conf <= 0) /\
  (v1.interval conf <= 0 ->
   v1.loopCheck ws conf =
     ([EvNewTicker (v1.interval conf)], Panics "non-positive interval for NewTicker")).
Proof.
  unfold v1.loopCheck.
  destruct (Z.leb_spec (v1.interval conf) 0) as [Hle|Hgt].
  - split; [|reflexivity]. split; [intros _; exact Hle|intros _; eexists; reflexivity].
  - split; [|lia]. split; [|lia]. intros [msg H]. exfalso. revert H.
    rewrite outcome_bind. cbn [emit outcome snd].
    destruct (v1_loop_returns ws conf 0) as [c' ->]. discriminate.
Qed.

Lemma v1_loopCheck_panics_iff_witness :
  v1.loopCheck [v1_sample_world 503 None]
    (v1.set_interval (v1_sample_conf 3) 0)
  = ([EvNewTicker 0], Panics "non-positive interval for NewTicker").
Proof.
  apply (v1_loopCheck_panics_iff [v1_sample_world 503 None]
           (v1.set_interval (v1_sample_conf 3) 0)).
  cbn. lia.
Defined.

(** X20.  [main] of [main.go] reaches its loop if and only if a
    configuration path is given, the file can be opened, read and parsed,
    the interval parses as a duration and the number of down times is
    positive; the loop then runs on the parsed configuration with that
    interval.  It ends by [os.Exit(1)] exactly when no path is given; every
    other failure is a panic. *)
Theorem v1_startup_succeeds_iff (env : v1.Startup) (conf' : v1.Config) (code : Z) :
  (v1.startup env = inr conf' <->
   v1.flag_config env <> "" /\
   exists f data conf d,
     v1.os_Open env (v1.flag_config env) = Ok f /\
     v1.ioutil_ReadAll env f = Ok data /\
     v1.yaml_Unmarshal env data = Ok conf /\
     v1.time_ParseDuration env (v1.Interval conf) = Ok d /\
     0 < v1.DownTimes conf /\
     conf' = v1.set_interval conf d) /\
  (v1.startup env = inl (v1.os_Exit code) <-> v1.flag_config env = "" /\ code = 1).
Proof.
  unfold v1.startup.
  destruct (String.eqb_spec (v1.flag_config env) "") as [He|Hne].
  { split; split; try discriminate.
    - intros [H _]. contradiction.
    - intros [= <-]. split; [exact He|reflexivity].
    - intros [_ ->]. reflexivity. }
  destruct (v1.os_Open env (v1.flag_config env)) as [f|e] eqn:Ho.
  2:{ split; split; try discriminate; try tauto.
      intros (_ & ? & ? & ? & ? & ? & _). discriminate. }
  destruct (v1.ioutil_ReadAll env f) as [data|e] eqn:Hr.
  2:{ split; split; try discriminate; try tauto.
      intros (_ & ? & ? & ? & ? & [= <-] & ? & _). congruence. }
  destruct (v1.yaml_Unmarshal env data) as [conf|e] eqn:Hy.
  2:{ split; split; try discriminate; try tauto.
      intros (_ & ? & ? & ? & ? & [= <-] & ? & ? & _). congruence. }
  destruct (v1.time_ParseDuration env (v1.Interval conf)) as [d|e] eqn:Hp.
  2:{ split; split; try discriminate; try tauto.
      intros (_ & ? & ? & ? & ? & [= <-] & ? & ? & ? & _). congruence. }
  cbn [v1.DownTimes v1.set_interval].
  destruct (Z.leb_spec (v1.DownTimes conf) 0) as [Hle|Hgt].
  - split; split; try discriminate; try tauto.
    intros (_ & f' & data' & conf0 & d' & [= <-] & Hr' & Hy' & _ & Hd & _).
    assert (data' = data) by congruence. subst.
    assert (conf0 = conf) by congruence. subst. lia.
  - split; split; try discriminate; try tauto.
    + intros [= <-]. split; [exact Hne|]. exists f, data, conf, d.
      repeat split; try assumption; reflexivity.
    + intros (_ & f' & data' & conf0 & d' & [= <-] & Hr' & Hy' & Hp' & _ & ->).
      assert (data' = data) by congruence. subst.
      assert (conf0 = conf) by congruence. subst.
      assert (d' = d) by congruence. subst. reflexivity.
Qed.

(** ** The error start-up reports *)

Lemma prepare_fails (env : Startup) (p : ProbeConfig) :
  ((exists e, time_ParseDuration env (Timeout p) = Err e) \/
   (exists e, time_ParseDuration env (Interval p) = Err e) \/
   DownTimes p <= 0) ->
  prepare env p =
    inl (log_Fatal
           match time_ParseDuration env (Timeout p) with
           | Err e => e
           | Ok _ =>
               match time_ParseDuration env (Interval p) with
               | Err e => e
               | Ok _ => errorNew "invalid down times"
               end
           end).
Proof.
  intros Hbad. unfold prepare.
  destruct (String.eqb (Name p) ""); cbn;
    destruct (String.eqb (ProbeURL p) ""); cbn;
    destruct (time_ParseDuration env (Timeout p)) as [d|e]; cbn; try reflexivity;
    destruct (time_ParseDuration env (Interval p)) as [d'|e]; cbn; try reflexivity;
    destruct (Z.leb_spec (DownTimes p) 0) as [Hle|Hgt]; try reflexivity;
    exfalso; destruct Hbad as [[? H]|[[? H]|H]]; try discriminate; lia.
Qed.

Lemma prepareAll_first_failure (env : Startup) (ps1 : list ProbeConfig) :
  forall p ps2 x,
    Forall (fun q => exists q', prepare env q = inr q') ps1 ->
    prepare env p = inl x ->
    prepareAll env (ps1 ++ p :: ps2) = inl x.
Proof.
  induction ps1 as [|q ps1 IH]; intros p ps2 x Hok Hp; cbn [app prepareAll].
  - now rewrite Hp.
  - inversion Hok as [|? ? [q' Hq] Hok']; subst. rewrite Hq.
    now rewrite (IH p ps2 x Hok' Hp).
Qed.

(** X21.  When the configuration file is read and parsed, start-up ends
    the process with the error of the first probe, in the order of the
    file, that is not valid; and of that probe with the first of: the error
    of parsing its timeout, the error of parsing its interval, "invalid
    down times".  Later probes are not looked at. *)
Theorem startup_reports_first_invalid_probe
  (env : Startup) (f : nat) (data : string) (conf : Config)
  (ps1 : list ProbeConfig) (p : ProbeConfig) (ps2 : list ProbeConfig) :
  flag_config env <> "" ->
  os_Open env (flag_config env) = Ok f ->
  ioutil_ReadAll env f = Ok data ->
  yaml_Unmarshal env data = Ok conf ->
  Probes conf = (ps1 ++ p :: ps2)%list ->
  Forall (fun q =>
            (exists d, time_ParseDuration env (Timeout q) = Ok d) /\
            (exists d, time_ParseDuration env (Interval q) = Ok d) /\
            0 < DownTimes q) ps1 ->
  ((exists e, time_ParseDuration env (Timeout p) = Err e) \/
   (exists e, time_ParseDuration env (Interval p) = Err e) \/
   DownTimes p <= 0) ->
  startup env =
    inl (log_Fatal
           match time_ParseDuration env (Timeout p) with
           | Err e => e
           | Ok _ =>
               match time_ParseDuration env (Interval p) with
               | Err e => e
               | Ok _ => errorNew "invalid down times"
               end
           end).
Proof.
  intros Hne Ho Hr Hy Hps Hok Hbad. unfold startup.
  destruct (String.eqb_spec (flag_config env) ""); [contradiction|].
  rewrite Ho, Hr, Hy, Hps.
  destruct (Z.leb_spec (Z.of_nat (List.length (ps1 ++ p :: ps2))) 0) as [Hle|_].
  { rewrite length_app in Hle. cbn in Hle. lia. }
  apply prepareAll_first_failure.
  - eapply Forall_impl; [|exact Hok]. cbn.
    intros q ([d Ht] & [d' Hi] & Hd). eapply prepare_succeeds; eassumption.
  - now apply prepare_fails.
Qed.

Lemma startup_reports_first_invalid_probe_witness :
  startup (sample_startup [sample_conf "ping 10.0.0.1" 3; sample_conf "" 0;
                           sample_conf "" (-1)] (5 * time.Second))
  = inl (log_Fatal (errorNew "invalid down times")).
Proof.
  apply (startup_reports_first_invalid_probe
           (sample_startup [sample_conf "ping 10.0.0.1" 3; sample_conf "" 0;
                            sample_conf "" (-1)] (5 * time.Second))
           3%nat "probes: ..."
           {| Probes := [sample_conf "ping 10.0.0.1" 3; sample_conf "" 0;
                         sample_conf "" (-1)] |}
           [sample_conf "ping 10.0.0.1" 3] (sample_conf "" 0) [sample_conf "" (-1)]).
  - discriminate.
  - reflexivity.
  - reflexivity.
  - reflexivity.
  - reflexivity.
  - repeat constructor; cbn; try (eexists; reflexivity).
  - right. right. cbn. lia.
Defined.
